(** * metalink: the metadata resolution pipeline of the /metadata handler

    The service answers [GET /metadata?url=...] by resolving a [Metadata]
    record for the target page.  YouTube pages are first tried through the
    oEmbed endpoint, then (when a key is configured) through the Data API,
    and every other case ends in a generic fetch of the page followed by
    scraping of its Open Graph tags.

    The development has three layers:
    - models of the library functions the handler calls ([strings],
      [net/url], [goquery]), written after the Go 1.23 sources;
    - the outside world: the HTTP client is an oracle from requests to
      responses, and every call to it is logged;
    - the handler and its helpers, transcribed statement by statement. *)

From Stdlib Require Import String Ascii ZArith NArith List Bool Lia.
From stdpp Require Import base option list gmap strings.

Local Open Scope Z_scope.

(* ===================================================================== *)
(** * Go [strings]: byte strings and the helpers the program relies on   *)
(* ===================================================================== *)

Module strings.

(** Go strings are byte sequences; [ascii] is the 8-bit byte. *)
Definition code (c : ascii) : N := N_of_ascii c.
Definition byte (n : N) : ascii := ascii_of_N n.

Definition between (lo hi c : ascii) : bool :=
  ((code lo <=? code c) && (code c <=? code hi))%N.

Definition isLower (c : ascii) : bool := between "a" "z" c.
Definition isUpper (c : ascii) : bool := between "A" "Z" c.
Definition isLetter (c : ascii) : bool := isLower c || isUpper c.
Definition isDigit (c : ascii) : bool := between "0" "9" c.

Definition isEmpty (s : string) : bool :=
  match s with EmptyString => true | String _ _ => false end.

Definition len (s : string) : nat := String.length s.

(** [s[n:]] and [s[:n]]. *)
Fixpoint drop (n : nat) (s : string) : string :=
  match n, s with
  | O, _ => s
  | S _, EmptyString => EmptyString
  | S n', String _ s' => drop n' s'
  end.

Fixpoint take (n : nat) (s : string) : string :=
  match n, s with
  | O, _ => EmptyString
  | S _, EmptyString => EmptyString
  | S n', String c s' => String c (take n' s')
  end.

Fixpoint rev_onto (s acc : string) : string :=
  match s with
  | EmptyString => acc
  | String c s' => rev_onto s' (String c acc)
  end.

Definition rev (s : string) : string := rev_onto s EmptyString.

Fixpoint all (p : ascii -> bool) (s : string) : bool :=
  match s with
  | EmptyString => true
  | String c s' => p c && all p s'
  end.

Fixpoint any (p : ascii -> bool) (s : string) : bool :=
  match s with
  | EmptyString => false
  | String c s' => p c || any p s'
  end.

Fixpoint HasPrefix (s prefix : string) : bool :=
  match prefix, s with
  | EmptyString, _ => true
  | String _ _, EmptyString => false
  | String p prefix', String c s' => Ascii.eqb p c && HasPrefix s' prefix'
  end.

Definition HasSuffix (s suffix : string) : bool :=
  HasPrefix (rev s) (rev suffix).

(** [strings.Index]: position of the first occurrence, or [None] for -1. *)
Fixpoint Index (s substr : string) : option nat :=
  if HasPrefix s substr then Some O
  else match s with
       | EmptyString => None
       | String _ s' => S <$> Index s' substr
       end.

(** [strings.LastIndex]: position of the last occurrence. *)
Fixpoint LastIndex (s substr : string) : option nat :=
  match s with
  | EmptyString => if isEmpty substr then Some O else None
  | String _ s' =>
      match LastIndex s' substr with
      | Some i => Some (S i)
      | None => if HasPrefix s substr then Some O else None
      end
  end.

Definition Contains (s substr : string) : bool :=
  match Index s substr with Some _ => true | None => false end.

(** [strings.Cut]: split around the first occurrence of [sep]. *)
Definition Cut (s sep : string) : string * string * bool :=
  match Index s sep with
  | Some i => (take i s, drop (i + len sep) s, true)
  | None => (s, EmptyString, false)
  end.

(** [strings.Count] for a single-byte pattern, the only use made of it. *)
Fixpoint CountByte (s : string) (b : ascii) : nat :=
  match s with
  | EmptyString => O
  | String c s' => ((if Ascii.eqb c b then 1 else 0) + CountByte s' b)%nat
  end.

Definition TrimPrefix (s prefix : string) : string :=
  if HasPrefix s prefix then drop (len prefix) s else s.

(** ASCII lower-casing.  The program lower-cases URL schemes only, and a
    scheme accepted by [getScheme] consists of ASCII bytes. *)
Definition lowerByte (c : ascii) : ascii :=
  if isUpper c then byte (code c + 32) else c.

Fixpoint ToLower (s : string) : string :=
  match s with
  | EmptyString => EmptyString
  | String c s' => String (lowerByte c) (ToLower s')
  end.

(** [strings.TrimSpace] removes leading and trailing runes for which
    [unicode.IsSpace] holds.  On the byte level those runes are exactly
    the following UTF-8 sequences; an ill-formed byte decodes to U+FFFD,
    which is not a space. *)
Definition bytes (l : list N) : string :=
  fold_right (fun n s => String (byte n) s) EmptyString l.

Definition spaceRunes : list string :=
  map bytes
    [ [9]; [10]; [11]; [12]; [13]; [32]       (* \t \n \v \f \r and space *)
    ; [194; 133]; [194; 160]                  (* U+0085, U+00A0 *)
    ; [225; 154; 128]                         (* U+1680 *)
    ; [226; 128; 128]; [226; 128; 129]; [226; 128; 130]; [226; 128; 131]
    ; [226; 128; 132]; [226; 128; 133]; [226; 128; 134]; [226; 128; 135]
    ; [226; 128; 136]; [226; 128; 137]; [226; 128; 138]  (* U+2000..U+200A *)
    ; [226; 128; 168]; [226; 128; 169]; [226; 128; 175]  (* U+2028 U+2029 U+202F *)
    ; [226; 129; 159]                         (* U+205F *)
    ; [227; 128; 128] ]%N.                    (* U+3000 *)

Fixpoint stripOne (runes : list string) (s : string) : option string :=
  match runes with
  | [] => None
  | r :: runes' =>
      if HasPrefix s r then Some (drop (len r) s) else stripOne runes' s
  end.

Fixpoint stripAll (fuel : nat) (runes : list string) (s : string) : string :=
  match fuel with
  | O => s
  | S fuel' =>
      match stripOne runes s with
      | Some s' => stripAll fuel' runes s'
      | None => s
      end
  end.

Definition TrimLeftSpace (s : string) : string :=
  stripAll (len s) spaceRunes s.

Definition TrimRightSpace (s : string) : string :=
  rev (stripAll (len s) (map rev spaceRunes) (rev s)).

Definition TrimSpace (s : string) : string :=
  TrimRightSpace (TrimLeftSpace s).

End strings.

(* ===================================================================== *)
(** * Go [net/url]: parsing, escaping and reference resolution           *)
(* ===================================================================== *)

Module url.
Import strings.

Record Userinfo := mkUserinfo {
  username : string;
  password : string;
  passwordSet : bool
}.

Record URL := mkURL {
  Scheme : string;
  Opaque : string;          (* encoded opaque data *)
  User : option Userinfo;   (* nil pointer is [None] *)
  Host : string;            (* host or host:port *)
  Path : string;
  RawPath : string;         (* encoded path hint *)
  OmitHost : bool;
  ForceQuery : bool;
  RawQuery : string;        (* without '?' *)
  Fragment : string;        (* without '#' *)
  RawFragment : string
}.

(** [new(URL)]: every field at its zero value. *)
Definition zero : URL :=
  mkURL "" "" None "" "" "" false false "" "" "".

Inductive encoding :=
| encodePath | encodePathSegment | encodeHost | encodeZone
| encodeUserPassword | encodeQueryComponent | encodeFragment.

Definition isHostMode (mode : encoding) : bool :=
  match mode with encodeHost | encodeZone => true | _ => false end.

Definition oneOf (c : ascii) (set : string) : bool := any (Ascii.eqb c) set.

Definition dquote : ascii := byte 34.

Definition ishex (c : ascii) : bool :=
  isDigit c || between "a" "f" c || between "A" "F" c.

Definition unhex (c : ascii) : N :=
  (if isDigit c then code c - code "0"
   else if between "a" "f" c then code c - code "a" + 10
   else if between "A" "F" c then code c - code "A" + 10
   else 0)%N.

Definition shouldEscape (c : ascii) (mode : encoding) : bool :=
  if isLetter c || isDigit c then false
  else if isHostMode mode && (oneOf c "!$&'()*+,;=:[]<>" || Ascii.eqb c dquote)
  then false
  else if oneOf c "-_.~" then false
  else if oneOf c "$&+,/:;=?@" then
    match mode with
    | encodePath => Ascii.eqb c "?"
    | encodePathSegment => oneOf c "/;,?"
    | encodeUserPassword => oneOf c "@/?:"
    | encodeQueryComponent => true
    | encodeFragment => false
    | encodeHost | encodeZone => true
    end
  else if match mode with encodeFragment => oneOf c "!()*" | _ => false end
  then false
  else true.

(** First pass of [unescape]: every '%' starts a well-formed escape that
    the mode admits, and host bytes are admissible. *)
Fixpoint wellEscaped (mode : encoding) (s : string) : bool :=
  match s with
  | EmptyString => true
  | String c s' =>
      if Ascii.eqb c "%" then
        match s' with
        | String a (String b rest) =>
            let v := byte (unhex a * 16 + unhex b) in
            let is25 := Ascii.eqb a "2" && Ascii.eqb b "5" in
            ishex a && ishex b
            && negb (match mode with
                     | encodeHost => (unhex a <? 8)%N && negb is25
                     | encodeZone =>
                         negb is25 && negb (Ascii.eqb v " ")
                         && shouldEscape v encodeHost
                     | _ => false
                     end)
            && wellEscaped mode rest
        | _ => false
        end
      else if Ascii.eqb c "+" then wellEscaped mode s'
      else
        negb (isHostMode mode && (code c <? 128)%N && shouldEscape c encodeHost)
        && wellEscaped mode s'
  end.

(** Second pass of [unescape]. *)
Fixpoint decode (mode : encoding) (s : string) : string :=
  match s with
  | EmptyString => EmptyString
  | String c s' =>
      if Ascii.eqb c "%" then
        match s' with
        | String a (String b rest) =>
            String (byte (unhex a * 16 + unhex b)) (decode mode rest)
        | _ => String c (decode mode s')
        end
      else if Ascii.eqb c "+" then
        String (match mode with encodeQueryComponent => " "%char | _ => "+"%char end)
               (decode mode s')
      else String c (decode mode s')
  end.

Definition unescape (s : string) (mode : encoding) : option string :=
  if wellEscaped mode s then Some (decode mode s) else None.

Definition upperhex (n : N) : ascii :=
  match String.get (N.to_nat n) "0123456789ABCDEF" with
  | Some c => c
  | None => "0"%char
  end.

Fixpoint escape (s : string) (mode : encoding) : string :=
  match s with
  | EmptyString => EmptyString
  | String c s' =>
      if Ascii.eqb c " " && match mode with encodeQueryComponent => true | _ => false end
      then String "+" (escape s' mode)
      else if shouldEscape c mode
      then String "%" (String (upperhex (code c / 16))
                        (String (upperhex (code c mod 16)) (escape s' mode)))
      else String c (escape s' mode)
  end.

Definition QueryEscape (s : string) : string := escape s encodeQueryComponent.
Definition QueryUnescape (s : string) : option string := unescape s encodeQueryComponent.

Definition stringContainsCTLByte (s : string) : bool :=
  any (fun b => (code b <? 32)%N || (code b =? 127)%N) s.

(** [getScheme]: [None] is the error "missing protocol scheme". *)
Fixpoint getSchemeAt (rawURL : string) (i : nat) (rest : string)
  : option (string * string) :=
  match rest with
  | EmptyString => Some (EmptyString, rawURL)
  | String c rest' =>
      if isLetter c then getSchemeAt rawURL (S i) rest'
      else if isDigit c || oneOf c "+-." then
        match i with
        | O => Some (EmptyString, rawURL)
        | S _ => getSchemeAt rawURL (S i) rest'
        end
      else if Ascii.eqb c ":" then
        match i with
        | O => None
        | S _ => Some (take i rawURL, rest')
        end
      else Some (EmptyString, rawURL)
  end.

Definition getScheme (rawURL : string) : option (string * string) :=
  getSchemeAt rawURL O rawURL.

Definition validOptionalPort (port : string) : bool :=
  match port with
  | EmptyString => true
  | String c digits => Ascii.eqb c ":" && all isDigit digits
  end.

Definition validUserinfo (s : string) : bool :=
  all (fun r => isLetter r || isDigit r || oneOf r "-._:~!$&'()*+,;=%@") s.

Definition parseHost (host : string) : option string :=
  if HasPrefix host "[" then
    match LastIndex host "]" with
    | None => None
    | Some i =>
        if negb (validOptionalPort (drop (S i) host)) then None
        else
          match Index (take i host) "%25" with
          | Some zone =>
              host1 ← unescape (take zone host) encodeHost;
              host2 ← unescape (drop zone (take i host)) encodeZone;
              host3 ← unescape (drop i host) encodeHost;
              Some (host1 +:+ host2 +:+ host3)
          | None => unescape host encodeHost
          end
    end
  else
    match LastIndex host ":" with
    | Some i =>
        if negb (validOptionalPort (drop i host)) then None
        else unescape host encodeHost
    | None => unescape host encodeHost
    end.

Definition parseAuthority (authority : string) : option (option Userinfo * string) :=
  match LastIndex authority "@" with
  | None => host ← parseHost authority; Some (None, host)
  | Some i =>
      host ← parseHost (drop (S i) authority);
      let userinfo := take i authority in
      if negb (validUserinfo userinfo) then None
      else if negb (Contains userinfo ":") then
        name ← unescape userinfo encodeUserPassword;
        Some (Some (mkUserinfo name "" false), host)
      else
        let '(name, pass, _) := Cut userinfo ":" in
        name ← unescape name encodeUserPassword;
        pass ← unescape pass encodeUserPassword;
        Some (Some (mkUserinfo name pass true), host)
  end.

Definition withPath (u : URL) (path rawPath : string) : URL :=
  mkURL (Scheme u) (Opaque u) (User u) (Host u) path rawPath
        (OmitHost u) (ForceQuery u) (RawQuery u) (Fragment u) (RawFragment u).

Definition withFragment (u : URL) (frag rawFrag : string) : URL :=
  mkURL (Scheme u) (Opaque u) (User u) (Host u) (Path u) (RawPath u)
        (OmitHost u) (ForceQuery u) (RawQuery u) frag rawFrag.

Definition setPath (u : URL) (p : string) : option URL :=
  path ← unescape p encodePath;
  Some (withPath u path
          (if String.eqb p (escape path encodePath) then EmptyString else p)).

Definition setFragment (u : URL) (f : string) : option URL :=
  frag ← unescape f encodeFragment;
  Some (withFragment u frag
          (if String.eqb f (escape frag encodeFragment) then EmptyString else f)).

(** [parse]: the worker behind [Parse] and [ParseRequestURI]. *)
Definition parse (rawURL : string) (viaRequest : bool) : option URL :=
  if stringContainsCTLByte rawURL then None
  else if isEmpty rawURL && viaRequest then None
  else if String.eqb rawURL "*" then Some (withPath zero "*" "")
  else
    '(scheme, rest) ← getScheme rawURL;
    let scheme := ToLower scheme in
    let '(rest, forceQuery, rawQuery) :=
      if HasSuffix rest "?" && Nat.eqb (CountByte rest "?") 1
      then (take (len rest - 1) rest, true, EmptyString)
      else let '(r, q, _) := Cut rest "?" in (r, false, q) in
    let rootless := negb (HasPrefix rest "/") in
    if rootless && negb (isEmpty scheme) then
      Some (mkURL scheme rest None "" "" "" false forceQuery rawQuery "" "")
    else if rootless && viaRequest then None
    else if rootless && (let '(segment, _, _) := Cut rest "/" in Contains segment ":")
    then None
    else if (negb (isEmpty scheme) || (negb viaRequest && negb (HasPrefix rest "///")))
            && HasPrefix rest "//"
    then
      let authority := drop 2 rest in
      let '(authority, rest) :=
        match Index authority "/" with
        | Some i => (take i authority, drop i authority)
        | None => (authority, EmptyString)
        end in
      '(user, host) ← parseAuthority authority;
      setPath (mkURL scheme "" user host "" "" false forceQuery rawQuery "" "") rest
    else
      let omitHost := negb (isEmpty scheme) && HasPrefix rest "/" in
      setPath (mkURL scheme "" None "" "" "" omitHost forceQuery rawQuery "" "") rest.

Definition Parse (rawURL : string) : option URL :=
  let '(u, frag, _) := Cut rawURL "#" in
  url ← parse u false;
  if isEmpty frag then Some url else setFragment url frag.

Definition ParseRequestURI (rawURL : string) : option URL := parse rawURL true.

(** [IsAbs]: an absolute URL is one with a non-empty scheme. *)
Definition IsAbs (u : URL) : bool := negb (isEmpty (Scheme u)).

Definition validEncoded (s : string) (mode : encoding) : bool :=
  all (fun c => oneOf c "!$&'()*+,;=:@[]%" || negb (shouldEscape c mode)) s.

Definition EscapedPath (u : URL) : string :=
  let hint :=
    if negb (isEmpty (RawPath u)) && validEncoded (RawPath u) encodePath then
      match unescape (RawPath u) encodePath with
      | Some p => String.eqb p (Path u)
      | None => false
      end
    else false in
  if hint then RawPath u
  else if String.eqb (Path u) "*" then "*"
  else escape (Path u) encodePath.

Definition EscapedFragment (u : URL) : string :=
  let hint :=
    if negb (isEmpty (RawFragment u)) && validEncoded (RawFragment u) encodeFragment then
      match unescape (RawFragment u) encodeFragment with
      | Some f => String.eqb f (Fragment u)
      | None => false
      end
    else false in
  if hint then RawFragment u else escape (Fragment u) encodeFragment.

Definition UserinfoString (ui : Userinfo) : string :=
  escape (username ui) encodeUserPassword
  +:+ (if passwordSet ui then ":" +:+ escape (password ui) encodeUserPassword
       else "").

(** The [String] method of [URL]: the pieces are appended to the buffer in
    order. *)
Definition String_ (u : URL) : string :=
  let buf := if isEmpty (Scheme u) then "" else Scheme u +:+ ":" in
  let buf :=
    if negb (isEmpty (Opaque u)) then buf +:+ Opaque u
    else
      let hasUser := match User u with Some _ => true | None => false end in
      let buf :=
        if negb (isEmpty (Scheme u)) || negb (isEmpty (Host u)) || hasUser then
          if OmitHost u && isEmpty (Host u) && negb hasUser then buf
          else
            let buf :=
              if negb (isEmpty (Host u)) || negb (isEmpty (Path u)) || hasUser
              then buf +:+ "//" else buf in
            let buf :=
              match User u with
              | Some ui => buf +:+ UserinfoString ui +:+ "@"
              | None => buf
              end in
            if negb (isEmpty (Host u)) then buf +:+ escape (Host u) encodeHost
            else buf
        else buf in
      let path := EscapedPath u in
      let buf :=
        if negb (isEmpty path) && negb (HasPrefix path "/") && negb (isEmpty (Host u))
        then buf +:+ "/" else buf in
      let buf :=
        if isEmpty buf then
          let '(segment, _, _) := Cut path "/" in
          if Contains segment ":" then buf +:+ "./" else buf
        else buf in
      buf +:+ path in
  let buf :=
    if ForceQuery u || negb (isEmpty (RawQuery u)) then buf +:+ "?" +:+ RawQuery u
    else buf in
  if negb (isEmpty (Fragment u)) then buf +:+ "#" +:+ EscapedFragment u else buf.

(** The successive [elem]s that the [strings.Cut(remaining, "/")] loop of
    [resolvePath] sees. *)
Fixpoint splitByte (sep : ascii) (s : string) : list string :=
  match s with
  | EmptyString => [EmptyString]
  | String c s' =>
      let r := splitByte sep s' in
      if Ascii.eqb c sep then EmptyString :: r
      else match r with
           | h :: t => String c h :: t
           | [] => [String c EmptyString]
           end
  end.

Definition isDot (elem : string) : bool := String.eqb elem ".".
Definition isDotDot (elem : string) : bool := String.eqb elem "..".

(** One round of the loop; the state is the builder [dst] and [first]. *)
Definition resolveStep (st : string * bool) (elem : string) : string * bool :=
  let '(dst, first) := st in
  if isDot elem then (dst, false)
  else if isDotDot elem then
    let str := drop 1 dst in
    match LastIndex str "/" with
    | None => ("/", true)
    | Some index => ("/" +:+ take index str, first)
    end
  else ((if first then dst else dst +:+ "/") +:+ elem, false).

Definition resolvePath (base ref : string) : string :=
  let full :=
    if isEmpty ref then base
    else if negb (HasPrefix ref "/") then
      match LastIndex base "/" with
      | Some i => take (S i) base +:+ ref
      | None => ref
      end
    else ref in
  if isEmpty full then ""
  else
    let elems := splitByte "/" full in
    let '(dst, _) := fold_left resolveStep elems ("/", true) in
    let elem := List.last elems "" in
    let dst := if isDot elem || isDotDot elem then dst +:+ "/" else dst in
    if HasPrefix (drop 1 dst) "/" then drop 1 dst else dst.

(** [setPath] inside [ResolveReference] has its error ignored. *)
Definition setPath' (u : URL) (p : string) : URL :=
  match setPath u p with Some u' => u' | None => u end.

Definition ResolveReference (u ref : URL) : URL :=
  let scheme := if isEmpty (Scheme ref) then Scheme u else Scheme ref in
  let url := mkURL scheme (Opaque ref) (User ref) (Host ref) (Path ref) (RawPath ref)
                   (OmitHost ref) (ForceQuery ref) (RawQuery ref)
                   (Fragment ref) (RawFragment ref) in
  let refHasUser := match User ref with Some _ => true | None => false end in
  if negb (isEmpty (Scheme ref)) || negb (isEmpty (Host ref)) || refHasUser then
    setPath' url (resolvePath (EscapedPath ref) "")
  else if negb (isEmpty (Opaque ref)) then
    mkURL scheme (Opaque ref) None "" "" (RawPath ref)
          (OmitHost ref) (ForceQuery ref) (RawQuery ref)
          (Fragment ref) (RawFragment ref)
  else
    let inheritQuery :=
      isEmpty (Path ref) && negb (ForceQuery ref) && isEmpty (RawQuery ref) in
    let inheritFrag := inheritQuery && isEmpty (Fragment ref) in
    let rawQuery := if inheritQuery then RawQuery u else RawQuery ref in
    let frag := if inheritFrag then Fragment u else Fragment ref in
    let rawFrag := if inheritFrag then RawFragment u else RawFragment ref in
    if isEmpty (Path ref) && negb (isEmpty (Opaque u)) then
      mkURL scheme (Opaque u) None "" "" (RawPath ref)
            (OmitHost ref) (ForceQuery ref) rawQuery frag rawFrag
    else
      setPath' (mkURL scheme (Opaque ref) (User u) (Host u) (Path ref) (RawPath ref)
                      (OmitHost ref) (ForceQuery ref) rawQuery frag rawFrag)
               (resolvePath (EscapedPath u) (EscapedPath ref)).

(** [Hostname]: the host without port and without IPv6 brackets. *)
Definition Hostname (u : URL) : string :=
  let host := Host u in
  let host :=
    match LastIndex host ":" with
    | Some colon =>
        if validOptionalPort (drop colon host) then take colon host else host
    | None => host
    end in
  if HasPrefix host "[" && HasSuffix host "]"
  then take (len host - 2) (drop 1 host) else host.

(** [Values] is [map[string][]string]. *)
Definition Values : Type := gmap string (list string).

Fixpoint parseQuery (fuel : nat) (m : Values) (query : string) : Values :=
  match fuel with
  | O => m
  | S fuel' =>
      if isEmpty query then m
      else
        let '(key, query', _) := Cut query "&" in
        if Contains key ";" then parseQuery fuel' m query'
        else if isEmpty key then parseQuery fuel' m query'
        else
          let '(key, value, _) := Cut key "=" in
          match QueryUnescape key, QueryUnescape value with
          | Some key, Some value =>
              parseQuery fuel' (<[key := default [] (m !! key) ++ [value]]> m) query'
          | _, _ => parseQuery fuel' m query'
          end
  end.

(** [u.Query()]: the error of [ParseQuery] is dropped, the pairs that
    parsed are kept.  Every round consumes at least one byte. *)
Definition Query (u : URL) : Values :=
  parseQuery (S (len (RawQuery u))) ∅ (RawQuery u).

Definition Get (v : Values) (key : string) : string :=
  match v !! key with
  | Some (x :: _) => x
  | _ => ""
  end.

End url.

(* ===================================================================== *)
(** * [goquery]: the parsed document and the queries made on it          *)
(* ===================================================================== *)

Module goquery.

(** An [html.Node] tree.  Comments and doctypes carry neither text nor
    attributes as far as the queries below are concerned. *)
#[warnings="-register-all"] Inductive Node :=
| TextNode (data : string)
| ElementNode (tag : string) (attr : list (string * string)) (children : list Node)
| OtherNode.

(** The children of the document node, in document order. *)
Definition Document : Type := list Node.

(** A selection is the list of its nodes. *)
Definition Selection : Type := list Node.

(** The compiled selectors the handler uses: a type selector, optionally
    qualified by [[key='val']]. *)
Inductive Selector :=
| Tag (tag : string)
| TagAttr (tag key val : string).

Definition matchAttribute (attr : list (string * string)) (key val : string) : bool :=
  existsb (fun a => String.eqb (fst a) key && String.eqb (snd a) val) attr.

Definition Match (m : Selector) (n : Node) : bool :=
  match n with
  | ElementNode tag attr _ =>
      match m with
      | Tag t => String.eqb tag t
      | TagAttr t key val => String.eqb tag t && matchAttribute attr key val
      end
  | _ => false
  end.

(** [MatchAll]: the node itself, then its descendants, depth first. *)
Fixpoint MatchAll (m : Selector) (n : Node) : list Node :=
  (if Match m n then [n] else [])
  ++ match n with
     | ElementNode _ _ children => flat_map (MatchAll m) children
     | _ => []
     end.

(** [doc.Find(selector)]: the matches below the document node. *)
Definition Find (doc : Document) (m : Selector) : Selection :=
  flat_map (fun c => match c with
                     | ElementNode _ _ _ => MatchAll m c
                     | _ => []
                     end) doc.

Definition First (s : Selection) : Selection :=
  match s with
  | [] => []
  | n :: _ => [n]
  end.

Fixpoint getAttributeValue (attrName : string) (attr : list (string * string))
  : option string :=
  match attr with
  | [] => None
  | (k, v) :: attr' =>
      if String.eqb k attrName then Some v else getAttributeValue attrName attr'
  end.

(** [s.Attr(name)]: the attribute of the first node; [None] is
    [exists = false]. *)
Definition Attr (s : Selection) (attrName : string) : option string :=
  match s with
  | ElementNode _ attr _ :: _ => getAttributeValue attrName attr
  | _ => None
  end.

Fixpoint nodeText (n : Node) : string :=
  match n with
  | TextNode data => data
  | ElementNode _ _ children =>
      fold_right (fun c acc => nodeText c +:+ acc) EmptyString children
  | OtherNode => EmptyString
  end.

(** [s.Text()]: the text of every node of the selection, concatenated. *)
Definition Text (s : Selection) : string :=
  fold_right (fun n acc => nodeText n +:+ acc) EmptyString s.

(** [s.Each(f)] with a callback that updates an accumulator. *)
Definition Each {A : Type} (s : Selection) (f : nat -> Selection -> A -> A) (a : A) : A :=
  snd (fold_left (fun st n => (S (fst st), f (fst st) [n] (snd st))) s (O, a)).

End goquery.

(* ===================================================================== *)
(** * The outside world                                                  *)
(* ===================================================================== *)

(** JSON payloads, as the structs they are decoded into. *)
Module oEmbedResponse.
Record t := mk {
  Title : string;          (* json:"title" *)
  AuthorName : string;     (* json:"author_name" *)
  ThumbnailURL : string;   (* json:"thumbnail_url" *)
  Provider : string        (* json:"provider_name" *)
}.
End oEmbedResponse.

Module youtubeAPIResponse.
Record Thumbnail := mkThumbnail { URL : string }.
Record Snippet := mkSnippet {
  Title : string;
  Description : string;
  ChannelTitle : string;
  Thumbnails : gmap string Thumbnail
}.
Record Item := mkItem { snippet : Snippet }.
Record t := mk { Items : list Item }.

(** The zero value read from a map for a missing key. *)
Definition zeroThumbnail : Thumbnail := mkThumbnail "".
End youtubeAPIResponse.

Module http.

(** A response body is a byte stream that the handler only ever hands to
    one of three library readers.  It is represented by what each reader
    makes of it; [None] is the reader's error. *)
Record Body := mkBody {
  decodeOEmbed : option oEmbedResponse.t;     (* json.NewDecoder(body).Decode(&oe) *)
  decodeYouTube : option youtubeAPIResponse.t;(* json.NewDecoder(body).Decode(&data) *)
  NewDocumentFromReader : option goquery.Document
}.

Record Response := mkResponse { StatusCode : Z; body : Body }.

Record Request := mkRequest {
  Method : string;
  URL : string;
  Header : list (string * string);
  Timeout : Z                                 (* of the client, in seconds *)
}.

Definition StatusOK : Z := 200.
Definition StatusBadRequest : Z := 400.
Definition StatusInternalServerError : Z := 500.
Definition StatusBadGateway : Z := 502.

(** The network as the HTTP client shows it: [None] is [err != nil]
    (transport failure, timeout, or a request the client refuses to send).
    Within one run of the handler no request is issued twice, so a function
    of the request is all the handler can observe of the world. *)
Definition Network : Type := Request -> option Response.

(** Computations that may call the client.  The log keeps, in order, every
    request handed to [client.Do] or [client.Get]: an outbound call is one
    entry of the log. *)
Definition IO (A : Type) : Type := Network -> A * list Request.

Definition ret {A : Type} (a : A) : IO A := fun _ => (a, []).

Definition bind {A B : Type} (m : IO A) (k : A -> IO B) : IO B :=
  fun net =>
    let '(a, log1) := m net in
    let '(b, log2) := k a net in
    (b, log1 ++ log2).

(** [client.Do(req)]. *)
Definition Do (req : Request) : IO (option Response) :=
  fun net => (net req, [req]).

(** [(&http.Client{Timeout: t}).Get(url)]. *)
Definition Get (timeout : Z) (url : string) : IO (option Response) :=
  Do (mkRequest "GET" url [] timeout).

(** [http.NewRequest("GET", url, nil)] fails exactly when [url.Parse]
    does. *)
Definition NewRequest (method rawurl : string) : option Request :=
  match url.Parse rawurl with
  | Some _ => Some (mkRequest method rawurl [] 0)
  | None => None
  end.

Definition HeaderSet (req : Request) (key value : string) : Request :=
  mkRequest (Method req) (URL req) (Header req ++ [(key, value)]) (Timeout req).

Definition withTimeout (req : Request) (timeout : Z) : Request :=
  mkRequest (Method req) (URL req) (Header req) timeout.

End http.

Notation "'call' x <- m 'in' k" := (http.bind m (fun x => k))
  (at level 10, x name, m at level 100, k at level 200).

(* ===================================================================== *)
(** * The program                                                        *)
(* ===================================================================== *)

(** Metadata represents the scraped metadata from a webpage. *)
Record Metadata := mkMetadata {
  URL : string;
  PageName : string;
  Title : string;
  Description : string;
  Images : list string
}.

(** The errors the two YouTube clients return. *)
Inductive error :=
| oEmbedError            (* "oEmbed error: %v" *)
| YouTubeAPIError        (* "YouTube API error: %v" *)
| DecodeError            (* the JSON decoder's error *)
| NoVideoFound (videoID : string).  (* "no video found for ID %s" *)

(** What [c.JSON(status, payload)] writes. *)
Inductive Payload :=
| ErrorJSON (msg : string)       (* map[string]string{"error": msg} *)
| MetadataJSON (meta : Metadata).

Record Reply := JSON { status : Z; payload : Payload }.

(** isYouTubeURL returns true if the host is YouTube or youtu.be. *)
Definition isYouTubeURL (u : url.URL) : bool :=
  let h := url.Hostname u in
  strings.Contains h "youtube.com" || strings.Contains h "youtu.be".

(** extractYouTubeID pulls the video ID from the URL. *)
Definition extractYouTubeID (u : url.URL) : string :=
  if strings.Contains (url.Host u) "youtu.be"
  then strings.TrimPrefix (url.Path u) "/"
  else url.Get (url.Query u) "v".

Definition oEmbedURL (videoURL : string) : string :=
  "https://www.youtube.com/oembed?url=" +:+ url.QueryEscape videoURL +:+ "&format=json".

(** fetchYouTubeOEmbed queries YouTube's oEmbed endpoint. *)
Definition fetchYouTubeOEmbed (videoURL : string) : http.IO (Metadata + error) :=
  let oeURL := oEmbedURL videoURL in
  call resp <- http.Get 5 oeURL in
  match resp with
  | None => http.ret (inr oEmbedError)
  | Some resp =>
      if negb (http.StatusCode resp =? http.StatusOK) then http.ret (inr oEmbedError)
      else
        match http.decodeOEmbed (http.body resp) with
        | None => http.ret (inr DecodeError)
        | Some oe =>
            http.ret (inl {| URL := videoURL;
                             PageName := oEmbedResponse.Provider oe;
                             Title := oEmbedResponse.Title oe;
                             Description := oEmbedResponse.AuthorName oe;
                             Images := [oEmbedResponse.ThumbnailURL oe] |})
        end
  end.

Definition dataAPIURL (videoID apiKey : string) : string :=
  "https://www.googleapis.com/youtube/v3/videos?part=snippet&id=" +:+ videoID
  +:+ "&key=" +:+ apiKey.

(** fetchYouTubeDataAPI queries the YouTube Data API v3. *)
Definition fetchYouTubeDataAPI (videoID apiKey : string) : http.IO (Metadata + error) :=
  let apiURL := dataAPIURL videoID apiKey in
  call resp <- http.Get 5 apiURL in
  match resp with
  | None => http.ret (inr YouTubeAPIError)
  | Some resp =>
      if negb (http.StatusCode resp =? http.StatusOK) then http.ret (inr YouTubeAPIError)
      else
        match http.decodeYouTube (http.body resp) with
        | None => http.ret (inr DecodeError)
        | Some data =>
            match youtubeAPIResponse.Items data with
            | [] => http.ret (inr (NoVideoFound videoID))
            | item :: _ =>
                let snip := youtubeAPIResponse.snippet item in
                let thumb :=
                  youtubeAPIResponse.URL
                    (default youtubeAPIResponse.zeroThumbnail
                       (youtubeAPIResponse.Thumbnails snip !! "high")) in
                http.ret (inl {| URL := videoID;
                                 PageName := youtubeAPIResponse.ChannelTitle snip;
                                 Title := youtubeAPIResponse.Title snip;
                                 Description := youtubeAPIResponse.Description snip;
                                 Images := [thumb] |})
            end
        end
  end.

(** getFirstContent finds the first meta tag by selector and returns its
    content attribute. *)
Definition getFirstContent (doc : goquery.Document) (selector : goquery.Selector) : string :=
  let sel := goquery.Find doc selector in
  match goquery.Attr (goquery.First sel) "content" with
  | Some content => strings.TrimSpace content
  | None => ""
  end.

Definition ogSiteName := goquery.TagAttr "meta" "property" "og:site_name".
Definition ogTitle := goquery.TagAttr "meta" "property" "og:title".
Definition ogDescription := goquery.TagAttr "meta" "property" "og:description".
Definition metaDescription := goquery.TagAttr "meta" "name" "description".
Definition ogImage := goquery.TagAttr "meta" "property" "og:image".

(** The callback of the og:image loop. *)
Definition appendContent (i : nat) (s : goquery.Selection) (images : list string)
  : list string :=
  match goquery.Attr s "content" with
  | Some img => images ++ [img]
  | None => images
  end.

(** The callback of the img loop. *)
Definition appendResolved (parsedURL : url.URL) (i : nat) (s : goquery.Selection)
    (images : list string) : list string :=
  match goquery.Attr s "src" with
  | Some src =>
      match url.Parse src with
      | Some u => images ++ [url.String_ (url.ResolveReference parsedURL u)]
      | None => images
      end
  | None => images
  end.

(** The scraping block of the handler: from [meta := Metadata{URL: rawURL}]
    down to the last loop. *)
Definition scrape (doc : goquery.Document) (rawURL : string) (parsedURL : url.URL)
  : Metadata :=
  let pageName := getFirstContent doc ogSiteName in
  let pageName := if strings.isEmpty pageName then url.Host parsedURL else pageName in
  let title := getFirstContent doc ogTitle in
  let title :=
    if strings.isEmpty title
    then strings.TrimSpace (goquery.Text (goquery.Find doc (goquery.Tag "title")))
    else title in
  let description := getFirstContent doc ogDescription in
  let description :=
    if strings.isEmpty description then getFirstContent doc metaDescription
    else description in
  let images := goquery.Each (goquery.Find doc ogImage) appendContent [] in
  let images :=
    if Nat.eqb (length images) 0
    then goquery.Each (goquery.Find doc (goquery.Tag "img")) (appendResolved parsedURL) images
    else images in
  {| URL := rawURL; PageName := pageName; Title := title;
     Description := description; Images := images |}.

Definition userAgent : string :=
  "Mozilla/5.0 (Windows NT 10.0; Win64; x64) " +:+
  "AppleWebKit/537.36 (KHTML, like Gecko) " +:+
  "Chrome/113.0.0.0 Safari/537.36".

(** The generic HTML scraping part of the handler. *)
Definition genericScrape (rawURL : string) (parsedURL : url.URL) : http.IO Reply :=
  match http.NewRequest "GET" (url.String_ parsedURL) with
  | None => http.ret (JSON http.StatusInternalServerError (ErrorJSON "failed to create request"))
  | Some req =>
      let req := http.HeaderSet req "User-Agent" userAgent in
      let req := http.HeaderSet req "Accept-Language" "en-GB,en;q=0.9" in
      let req := http.HeaderSet req "Cache-Control" "no-cache" in
      call resp <- http.Do (http.withTimeout req 10) in
      match resp with
      | None => http.ret (JSON http.StatusBadGateway (ErrorJSON "failed to fetch target"))
      | Some resp =>
          if (http.StatusCode resp <? 200) || (http.StatusCode resp >=? 300)
          then http.ret (JSON http.StatusBadGateway (ErrorJSON "failed to fetch target"))
          else
            match http.NewDocumentFromReader (http.body resp) with
            | None =>
                http.ret (JSON http.StatusInternalServerError (ErrorJSON "failed to parse html"))
            | Some doc =>
                http.ret (JSON http.StatusOK (MetadataJSON (scrape doc rawURL parsedURL)))
            end
      end
  end.

(** getMetadataHandler returns a handler that can use an optional YouTube
    API key.  [rawURL] is [c.QueryParam("url")]. *)
Definition getMetadataHandler (ytAPIKey : string) (rawURL : string) : http.IO Reply :=
  if strings.isEmpty rawURL
  then http.ret (JSON http.StatusBadRequest (ErrorJSON "missing url parameter"))
  else
    match url.ParseRequestURI rawURL with
    | None => http.ret (JSON http.StatusBadRequest (ErrorJSON "invalid url"))
    | Some parsedURL =>
        if isYouTubeURL parsedURL then
          (* Try oEmbed *)
          call r <- fetchYouTubeOEmbed rawURL in
          match r with
          | inl meta => http.ret (JSON http.StatusOK (MetadataJSON meta))
          | inr _ =>
              (* Fallback to Data API if key provided *)
              if negb (strings.isEmpty ytAPIKey) then
                let videoID := extractYouTubeID parsedURL in
                call r <- fetchYouTubeDataAPI videoID ytAPIKey in
                match r with
                | inl idMeta => http.ret (JSON http.StatusOK (MetadataJSON idMeta))
                | inr _ => genericScrape rawURL parsedURL
                end
              else genericScrape rawURL parsedURL
          end
        else genericScrape rawURL parsedURL
    end.

(* ===================================================================== *)
(** * The server around the handler                                      *)
(* ===================================================================== *)

Module echo.

(** An [echo.Context], by the two things the program asks of it:
    [c.Request().Header.Get(name)] and [c.QueryParam(name)].  Both answer
    the empty string for a name that is absent. *)
Record Context := mkContext {
  HeaderGet : string -> string;
  QueryParam : string -> string
}.

Definition HandlerFunc : Type := Context -> http.IO Reply.
Definition MiddlewareFunc : Type := HandlerFunc -> HandlerFunc.

End echo.

Definition StatusUnauthorized : Z := 401.

(** apiKeyAuthMiddleware checks for a valid X-API-Key header. *)
Definition apiKeyAuthMiddleware (expectedKey : string) : echo.MiddlewareFunc :=
  fun next c =>
    let key := echo.HeaderGet c "X-API-Key" in
    if strings.isEmpty key || negb (String.eqb key expectedKey)
    then http.ret (JSON StatusUnauthorized (ErrorJSON "invalid or missing API key"))
    else next c.




(* ===================================================================== *)
(** * Vocabulary of the statements                                       *)
(* ===================================================================== *)

(** The request that [client.Get(url)] of a 5-second client performs. *)
Definition providerRequest (u : string) : http.Request := http.mkRequest "GET" u [] 5.

Definition oEmbedRequest (videoURL : string) : http.Request :=
  providerRequest (oEmbedURL videoURL).

Definition dataAPIRequest (videoID apiKey : string) : http.Request :=
  providerRequest (dataAPIURL videoID apiKey).

(** The request of the generic fetch. *)
Definition pageRequest (parsedURL : url.URL) : http.Request :=
  http.mkRequest "GET" (url.String_ parsedURL)
    [("User-Agent", userAgent); ("Accept-Language", "en-GB,en;q=0.9");
     ("Cache-Control", "no-cache")] 10.

(** Two readings of "the string is an absolute URL": it opens with a
    scheme and a colon, the way [getScheme] finds one; or it parses and the
    parsed URL reports [IsAbs]. *)
Definition hasScheme (s : string) : bool :=
  match url.getScheme s with
  | Some (scheme, _) => negb (strings.isEmpty scheme)
  | None => false
  end.

Definition isAbsoluteURL (s : string) : bool :=
  match url.Parse s with
  | Some u => url.IsAbs u
  | None => false
  end.

(** The bytes of a scheme: a letter, then letters, digits, '+', '-', '.'. *)
Definition schemeByte (c : ascii) : bool :=
  strings.isLetter c || strings.isDigit c || url.oneOf c "+-.".

Definition validScheme (s : string) : bool :=
  match s with
  | EmptyString => false
  | String c rest => strings.isLetter c && strings.all schemeByte rest
  end.

(** The value of the [content] attribute of a node, when it has one. *)
Definition contentOf (n : goquery.Node) : option string := goquery.Attr [n] "content".

(** An image source resolved against the request URL; [None] when the
    node has no [src] or the source does not parse. *)
Definition resolvedSrc (parsedURL : url.URL) (n : goquery.Node) : option string :=
  src ← goquery.Attr [n] "src";
  u ← url.Parse src;
  Some (url.String_ (url.ResolveReference parsedURL u)).

(** The ["high"] thumbnail of a snippet, empty when the key is absent. *)
Definition highThumbnail (snip : youtubeAPIResponse.Snippet) : string :=
  match youtubeAPIResponse.Thumbnails snip !! "high" with
  | Some t => youtubeAPIResponse.URL t
  | None => ""
  end.

(** How a 200 reply came about: the tier that produced the record, with
    the response it was built from. *)
Inductive ResolvedBy (ytAPIKey rawURL : string) (parsedURL : url.URL)
    (net : http.Network) (meta : Metadata) (log : list http.Request) : Prop :=
| ByOEmbed (resp : http.Response) (oe : oEmbedResponse.t) :
    isYouTubeURL parsedURL = true ->
    net (oEmbedRequest rawURL) = Some resp ->
    http.decodeOEmbed (http.body resp) = Some oe ->
    meta = {| URL := rawURL;
              PageName := oEmbedResponse.Provider oe;
              Title := oEmbedResponse.Title oe;
              Description := oEmbedResponse.AuthorName oe;
              Images := [oEmbedResponse.ThumbnailURL oe] |} ->
    log = [oEmbedRequest rawURL] ->
    ResolvedBy ytAPIKey rawURL parsedURL net meta log
| ByDataAPI (resp : http.Response) (data : youtubeAPIResponse.t)
    (item : youtubeAPIResponse.Item) (rest : list youtubeAPIResponse.Item) :
    isYouTubeURL parsedURL = true ->
    ytAPIKey <> "" ->
    net (dataAPIRequest (extractYouTubeID parsedURL) ytAPIKey) = Some resp ->
    http.decodeYouTube (http.body resp) = Some data ->
    youtubeAPIResponse.Items data = item :: rest ->
    meta = {| URL := extractYouTubeID parsedURL;
              PageName := youtubeAPIResponse.ChannelTitle (youtubeAPIResponse.snippet item);
              Title := youtubeAPIResponse.Title (youtubeAPIResponse.snippet item);
              Description := youtubeAPIResponse.Description (youtubeAPIResponse.snippet item);
              Images := [highThumbnail (youtubeAPIResponse.snippet item)] |} ->
    log = [oEmbedRequest rawURL; dataAPIRequest (extractYouTubeID parsedURL) ytAPIKey] ->
    ResolvedBy ytAPIKey rawURL parsedURL net meta log
| ByScrape (resp : http.Response) (doc : goquery.Document) :
    net (pageRequest parsedURL) = Some resp ->
    http.NewDocumentFromReader (http.body resp) = Some doc ->
    meta = scrape doc rawURL parsedURL ->
    last log = Some (pageRequest parsedURL) ->
    ResolvedBy ytAPIKey rawURL parsedURL net meta log.

(** The error replies the metadata handler can give. *)
Definition errorReplies : list (Z * string) :=
  [ (400, "missing url parameter"); (400, "invalid url");
    (500, "failed to create request"); (502, "failed to fetch target");
    (500, "failed to parse html") ].

(** A reply is a 200 with a record, or one of the error replies. *)
Definition replyInTaxonomy (reply : Reply) : Prop :=
  match payload reply with
  | MetadataJSON _ => status reply = 200
  | ErrorJSON msg => (status reply, msg) ∈ errorReplies
  end.

(** A string neither begins nor ends with a space rune. *)
Definition trimmed (s : string) : Prop :=
  strings.stripOne strings.spaceRunes s = None
  /\ strings.stripOne (map strings.rev strings.spaceRunes) (strings.rev s) = None.

(** The shape of an https URL with a host, a path and a query, and of one
    with a host and a path only. *)
Definition httpsURL (host path query : string) : string :=
  "https://" +:+ host +:+ path +:+ String "?" query.

Definition httpsPlainURL (host path : string) : string :=
  "https://" +:+ host +:+ path.

(** The byte [c] does not occur in [s]. *)
Definition noByte (c : ascii) (s : string) : bool :=
  strings.all (fun x => negb (Ascii.eqb x c)) s.

(** The bytes [url.QueryEscape] can produce. *)
Definition escapedByte (c : ascii) : bool :=
  strings.isLetter c || strings.isDigit c || url.oneOf c "-_.~%+".

(** The bytes of a video ID. *)
Definition idByte (c : ascii) : bool :=
  strings.isLetter c || strings.isDigit c || url.oneOf c "-_".

(* ===================================================================== *)
(** * Sample documents, payloads and networks                            *)
(* ===================================================================== *)

Module Samples.
Import goquery.

Definition html (head body : list Node) : Document :=
  [ElementNode "html" [] [ElementNode "head" [] head; ElementNode "body" [] body]].

Definition meta (property content : string) : Node :=
  ElementNode "meta" [("property", property); ("content", content)] [].

Definition title (text : string) : Node := ElementNode "title" [] [TextNode text].

Definition img (src : string) : Node := ElementNode "img" [("src", src)] [].

(** og:title "Hi", no og:image, one relative image. *)
Definition pageHi : Document :=
  html [meta "og:title" "Hi"; title "Plain title"] [img "logo.png"].

(** An og:title tag whose content is blank, next to a plain title. *)
Definition pageBlankOgTitle : Document :=
  html [meta "og:title" "  "; title " Plain title "] [].

(** A relative og:image and an image element. *)
Definition pageRelativeOgImage : Document :=
  html [meta "og:image" "/a.png"] [img "b.png"].

(** An og:image tag with empty content and an image element. *)
Definition pageEmptyOgImage : Document :=
  html [meta "og:image" ""; meta "og:image" "https://cdn.test/x.png"] [img "b.png"].

(** An image whose source is not a URL reference ("missing protocol
    scheme"), between two that are. *)
Definition pageBadSrc : Document :=
  html [title "t"] [img "/a.png"; img ":bad"; ElementNode "img" [("alt", "no source")] []].

Definition htmlBody (doc : Document) : http.Body := http.mkBody None None (Some doc).

(** The JSON samples below are given by what the JSON decoder makes of
    them into either struct; their reading as HTML is never consulted.

    The body [{}] : every field of either struct keeps its zero value. *)
Definition emptyObjectBody : http.Body :=
  http.mkBody (Some (oEmbedResponse.mk "" "" "" ""))
              (Some (youtubeAPIResponse.mk [])) None.

Definition oEmbedBody (oe : oEmbedResponse.t) : http.Body :=
  http.mkBody (Some oe) (Some (youtubeAPIResponse.mk [])) None.

Definition rick : oEmbedResponse.t :=
  oEmbedResponse.mk "Never Gonna Give You Up" "Rick Astley"
                    "https://i.ytimg.com/vi/dQw4w9WgXcQ/hqdefault.jpg" "YouTube".

Definition snippetNoHigh : youtubeAPIResponse.Snippet :=
  youtubeAPIResponse.mkSnippet "A video" "About it" "A channel"
    {[ "default" := youtubeAPIResponse.mkThumbnail "https://i.ytimg.com/vi/x/default.jpg" ]}.

Definition snippetHigh : youtubeAPIResponse.Snippet :=
  youtubeAPIResponse.mkSnippet "A video" "About it" "A channel"
    {[ "high" := youtubeAPIResponse.mkThumbnail "https://i.ytimg.com/vi/x/hqdefault.jpg" ]}.

Definition videosBody (snips : list youtubeAPIResponse.Snippet) : http.Body :=
  http.mkBody None (Some (youtubeAPIResponse.mk (map youtubeAPIResponse.mkItem snips))) None.

(** Nothing answers. *)
Definition offline : http.Network := fun _ => None.

(** An ordinary page and a short YouTube link, raw and parsed. *)
Definition pageURL : string := "https://example.test/page".
Definition parsedPage : url.URL :=
  url.mkURL "https" "" None "example.test" "/page" "" false false "" "" "".

Definition shortLink : string := "https://youtu.be/abc".
Definition parsedShortLink : url.URL :=
  url.mkURL "https" "" None "youtu.be" "/abc" "" false false "" "" "".

(** An opaque URL whose fragment is not well escaped: accepted by
    [ParseRequestURI], which does not look for a fragment, while its
    rendering is rejected by [Parse], which does. *)
Definition opaqueURL : string := "x:a#%zz".
Definition parsedOpaque : url.URL :=
  url.mkURL "x" "a#%zz" None "" "" "" false false "" "" "".



(** A rooted path: accepted by [ParseRequestURI], with no scheme or host. *)
Definition parsedRootedPath : url.URL :=
  url.mkURL "" "" None "" "/foo" "" false false "" "" "".

(** A network in which exactly one URL answers, with status 200. *)
Definition serving (u : string) (b : http.Body) : http.Network :=
  fun req => if String.eqb (http.URL req) u then Some (http.mkResponse 200 b) else None.

End Samples.

(* ===================================================================== *)
(** * Basic facts                                                        *)
(* ===================================================================== *)

(** Unfolds the plumbing of [http.IO]. *)
Ltac run := unfold http.bind, http.Get, http.Do, http.ret.

Lemma isEmpty_true (s : string) : strings.isEmpty s = true <-> s = "".
Proof. destruct s; simpl; split; congruence. Qed.

Lemma isEmpty_false (s : string) : strings.isEmpty s = false <-> s <> "".
Proof. destruct s; simpl; split; congruence. Qed.

Lemma Each_index_irrelevant {A : Type} (g : goquery.Selection -> A -> A)
    (s : goquery.Selection) (a : A) :
  goquery.Each s (fun _ => g) a = fold_left (fun acc n => g [n] acc) s a.
Proof.
  unfold goquery.Each.
  generalize O. revert a.
  induction s as [|n s IH]; intros a i; simpl; [reflexivity|].
  apply IH.
Qed.

Lemma Each_appendContent (s : goquery.Selection) (acc : list string) :
  goquery.Each s appendContent acc = acc ++ omap contentOf s.
Proof.
  change appendContent with (fun _ : nat => appendContent O).
  rewrite Each_index_irrelevant.
  revert acc. induction s as [|n s IH]; intros acc; simpl.
  - by rewrite app_nil_r.
  - rewrite IH. unfold appendContent, contentOf.
    destruct (goquery.Attr [n] "content"); simpl; [|reflexivity].
    by rewrite <- app_assoc.
Qed.

Lemma Each_appendResolved (parsedURL : url.URL) (s : goquery.Selection)
    (acc : list string) :
  goquery.Each s (appendResolved parsedURL) acc = acc ++ omap (resolvedSrc parsedURL) s.
Proof.
  change (appendResolved parsedURL) with (fun _ : nat => appendResolved parsedURL O).
  rewrite Each_index_irrelevant.
  revert acc. induction s as [|n s IH]; intros acc; simpl.
  - by rewrite app_nil_r.
  - rewrite IH. unfold appendResolved, resolvedSrc.
    destruct (goquery.Attr [n] "src") as [src|]; simpl; [|reflexivity].
    destruct (url.Parse src); simpl; [|reflexivity].
    by rewrite <- app_assoc.
Qed.

(** The images of a scraped page: the og:image contents, or else the
    resolved image sources. *)
Lemma scrape_Images (doc : goquery.Document) (rawURL : string) (parsedURL : url.URL) :
  Images (scrape doc rawURL parsedURL) =
  match omap contentOf (goquery.Find doc ogImage) with
  | [] => omap (resolvedSrc parsedURL) (goquery.Find doc (goquery.Tag "img"))
  | og => og
  end.
Proof.
  unfold scrape; simpl.
  rewrite Each_appendContent; simpl.
  destruct (omap contentOf (goquery.Find doc ogImage)) as [|x og]; simpl.
  - by rewrite Each_appendResolved.
  - reflexivity.
Qed.

(* ===================================================================== *)
(** * The fuel of the library models is enough                           *)
(* ===================================================================== *)

Section Fuel.
Import strings.

Lemma len_drop (n : nat) (s : string) : (len (drop n s) = len s - n)%nat.
Proof.
  revert s. induction n as [|n IH]; intros s; simpl.
  - lia.
  - destruct s as [|c s]; simpl; [done|apply IH].
Qed.

Lemma HasPrefix_len (s prefix : string) :
  HasPrefix s prefix = true -> (len prefix <= len s)%nat.
Proof.
  revert s. induction prefix as [|p prefix IH]; intros [|c s]; simpl; try lia; try discriminate.
  intros [_ H]%andb_true_iff. apply IH in H. lia.
Qed.

Lemma stripOne_shorter (runes : list string) (s s' : string) :
  Forall (fun r => r <> "") runes ->
  stripOne runes s = Some s' -> (len s' < len s)%nat.
Proof.
  induction 1 as [|r runes Hr _ IH]; simpl; [discriminate|].
  destruct (HasPrefix s r) eqn:Hp; [|exact IH].
  intros [= <-]. rewrite len_drop. apply HasPrefix_len in Hp.
  destruct r; [done|]. simpl in *. lia.
Qed.

(** With fuel for every byte, stripping stops only when nothing is left
    to strip. *)
Lemma stripAll_done (runes : list string) (fuel : nat) (s : string) :
  Forall (fun r => r <> "") runes ->
  (len s <= fuel)%nat ->
  stripOne runes (stripAll fuel runes s) = None.
Proof.
  intros Hrunes. revert s. induction fuel as [|fuel IH]; intros s Hlen; simpl.
  - destruct s; [|simpl in Hlen; lia].
    destruct (stripOne runes "") as [s'|] eqn:H; [|done].
    apply stripOne_shorter in H; [simpl in H; lia|done].
  - destruct (stripOne runes s) as [s'|] eqn:H; [|done].
    apply IH. apply stripOne_shorter in H; [lia|done].
Qed.

Lemma spaceRunes_nonempty : Forall (fun r => r <> "") spaceRunes.
Proof. unfold spaceRunes. repeat constructor; discriminate. Qed.

Lemma len_rev_onto (s acc : string) : (len (rev_onto s acc) = len s + len acc)%nat.
Proof.
  revert acc. induction s as [|c s IH]; intros acc; simpl; [done|].
  rewrite IH. simpl. lia.
Qed.

Lemma len_rev (s : string) : len (rev s) = len s.
Proof. unfold rev. rewrite len_rev_onto. simpl. lia. Qed.

(** [TrimSpace] leaves no space rune at either end. *)
Lemma TrimLeftSpace_done (s : string) : stripOne spaceRunes (TrimLeftSpace s) = None.
Proof. apply stripAll_done; [apply spaceRunes_nonempty|done]. Qed.

Lemma TrimRightSpace_done (s : string) :
  exists t, TrimRightSpace s = rev t /\ stripOne (map rev spaceRunes) t = None.
Proof.
  eexists. split; [reflexivity|].
  apply stripAll_done.
  - unfold spaceRunes. simpl. repeat constructor; discriminate.
  - by rewrite len_rev.
Qed.

Lemma len_Cut (s sep : string) (before after : string) (found : bool) :
  s <> "" -> sep <> "" ->
  Cut s sep = (before, after, found) -> (len after < len s)%nat.
Proof.
  intros Hs Hsep. unfold Cut.
  destruct (Index s sep) as [i|].
  - intros [= _ <- _]. rewrite len_drop.
    destruct s; [done|]. destruct sep; [done|]. simpl. lia.
  - intros [= _ <- _]. destruct s; [done|]. simpl. lia.
Qed.

(** [parseQuery] eats at least one byte per round, so any fuel above the
    length of the query gives the same map. *)
Lemma parseQuery_fuel (fuel1 fuel2 : nat) (m : url.Values) (query : string) :
  (len query < fuel1)%nat -> (len query < fuel2)%nat ->
  url.parseQuery fuel1 m query = url.parseQuery fuel2 m query.
Proof.
  revert fuel2 m query.
  induction fuel1 as [|fuel1 IH]; intros [|fuel2] m query H1 H2; try lia.
  simpl.
  destruct (isEmpty query) eqn:Hq; [done|].
  apply isEmpty_false in Hq.
  destruct (Cut query "&") as [[key query'] found] eqn:Hcut.
  apply len_Cut in Hcut; [|done..].
  assert (Hrec : forall m', url.parseQuery fuel1 m' query' = url.parseQuery fuel2 m' query').
  { intros m'. apply IH; lia. }
  destruct (Contains key ";"); [apply Hrec|].
  destruct (isEmpty key); [apply Hrec|].
  destruct (Cut key "=") as [[k v] f].
  destruct (url.QueryUnescape k); [|apply Hrec].
  destruct (url.QueryUnescape v); apply Hrec.
Qed.

End Fuel.

(* ===================================================================== *)
(** * The provider clients                                               *)
(* ===================================================================== *)

(** Both clients perform exactly one call, whatever comes back. *)
Lemma fetchYouTubeOEmbed_log (videoURL : string) (net : http.Network) :
  snd (fetchYouTubeOEmbed videoURL net) = [oEmbedRequest videoURL].
Proof.
  unfold fetchYouTubeOEmbed, oEmbedRequest, providerRequest. run.
  destruct (net _) as [resp|]; [|reflexivity].
  destruct (negb _); [reflexivity|].
  destruct (http.decodeOEmbed _); reflexivity.
Qed.

Lemma fetchYouTubeDataAPI_log (videoID apiKey : string) (net : http.Network) :
  snd (fetchYouTubeDataAPI videoID apiKey net) = [dataAPIRequest videoID apiKey].
Proof.
  unfold fetchYouTubeDataAPI, dataAPIRequest, providerRequest. run.
  destruct (net _) as [resp|]; [|reflexivity].
  destruct (negb _); [reflexivity|].
  destruct (http.decodeYouTube _) as [data|]; [|reflexivity].
  destruct (youtubeAPIResponse.Items data); reflexivity.
Qed.

(** When the oEmbed client succeeds, the response was a decodable 200 and
    the record is built from it. *)
Lemma fetchYouTubeOEmbed_inl (videoURL : string) (net : http.Network) (meta : Metadata) :
  fst (fetchYouTubeOEmbed videoURL net) = inl meta ->
  exists resp oe,
    net (oEmbedRequest videoURL) = Some resp
    /\ http.StatusCode resp = 200
    /\ http.decodeOEmbed (http.body resp) = Some oe
    /\ meta = {| URL := videoURL;
                 PageName := oEmbedResponse.Provider oe;
                 Title := oEmbedResponse.Title oe;
                 Description := oEmbedResponse.AuthorName oe;
                 Images := [oEmbedResponse.ThumbnailURL oe] |}.
Proof.
  unfold fetchYouTubeOEmbed, oEmbedRequest, providerRequest. run.
  destruct (net _) as [resp|] eqn:Hnet; simpl; [|discriminate].
  destruct (http.StatusCode resp =? http.StatusOK) eqn:Hst; simpl; [|discriminate].
  destruct (http.decodeOEmbed _) as [oe|] eqn:Hdec; simpl; [|discriminate].
  intros [= <-]. exists resp, oe. repeat split; try done.
  by apply Z.eqb_eq in Hst.
Qed.

Lemma fetchYouTubeDataAPI_inl (videoID apiKey : string) (net : http.Network)
    (meta : Metadata) :
  fst (fetchYouTubeDataAPI videoID apiKey net) = inl meta ->
  exists resp data item rest,
    net (dataAPIRequest videoID apiKey) = Some resp
    /\ http.StatusCode resp = 200
    /\ http.decodeYouTube (http.body resp) = Some data
    /\ youtubeAPIResponse.Items data = item :: rest
    /\ meta = {| URL := videoID;
                 PageName := youtubeAPIResponse.ChannelTitle (youtubeAPIResponse.snippet item);
                 Title := youtubeAPIResponse.Title (youtubeAPIResponse.snippet item);
                 Description := youtubeAPIResponse.Description (youtubeAPIResponse.snippet item);
                 Images := [highThumbnail (youtubeAPIResponse.snippet item)] |}.
Proof.
  unfold fetchYouTubeDataAPI, dataAPIRequest, providerRequest. run.
  destruct (net _) as [resp|] eqn:Hnet; simpl; [|discriminate].
  destruct (http.StatusCode resp =? http.StatusOK) eqn:Hst; simpl; [|discriminate].
  destruct (http.decodeYouTube _) as [data|] eqn:Hdec; simpl; [|discriminate].
  destruct (youtubeAPIResponse.Items data) as [|item rest] eqn:Hitems; simpl; [discriminate|].
  intros [= <-]. exists resp, data, item, rest. repeat split; try done.
  - by apply Z.eqb_eq in Hst.
  - unfold highThumbnail.
    by destruct (youtubeAPIResponse.Thumbnails _ !! "high").
Qed.

(** C9.  Every successful oEmbed response (status 200, decodable JSON) is
    mapped field by field: page_name is the provider name, title the title,
    description the author name, images the one-element list holding the
    thumbnail URL, and url the page URL that was passed in.  One call is
    made. *)
Theorem fetchYouTubeOEmbed_maps_response
    (videoURL : string) (net : http.Network) (resp : http.Response)
    (oe : oEmbedResponse.t) :
  net (oEmbedRequest videoURL) = Some resp ->
  http.StatusCode resp = 200 ->
  http.decodeOEmbed (http.body resp) = Some oe ->
  fetchYouTubeOEmbed videoURL net =
    (inl {| URL := videoURL;
            PageName := oEmbedResponse.Provider oe;
            Title := oEmbedResponse.Title oe;
            Description := oEmbedResponse.AuthorName oe;
            Images := [oEmbedResponse.ThumbnailURL oe] |},
     [oEmbedRequest videoURL]).
Proof.
  intros Hnet Hst Hdec.
  unfold fetchYouTubeOEmbed. run.
  unfold oEmbedRequest, providerRequest in Hnet. rewrite Hnet.
  rewrite Hst; simpl. rewrite Hdec. reflexivity.
Qed.

(** C8.  Every successful Data API response (status 200, decodable JSON,
    at least one item) is mapped from the snippet of the first item:
    page_name is the channel title, title the title, description the
    description, images the one-element list holding the URL stored under
    the key "high" of the thumbnails (the empty string when that key is
    absent), and url the video ID.  One call is made. *)
Theorem fetchYouTubeDataAPI_maps_response
    (videoID apiKey : string) (net : http.Network) (resp : http.Response)
    (data : youtubeAPIResponse.t) (item : youtubeAPIResponse.Item)
    (rest : list youtubeAPIResponse.Item) :
  net (dataAPIRequest videoID apiKey) = Some resp ->
  http.StatusCode resp = 200 ->
  http.decodeYouTube (http.body resp) = Some data ->
  youtubeAPIResponse.Items data = item :: rest ->
  let snip := youtubeAPIResponse.snippet item in
  fetchYouTubeDataAPI videoID apiKey net =
    (inl {| URL := videoID;
            PageName := youtubeAPIResponse.ChannelTitle snip;
            Title := youtubeAPIResponse.Title snip;
            Description := youtubeAPIResponse.Description snip;
            Images := [highThumbnail snip] |},
     [dataAPIRequest videoID apiKey])
  /\ (youtubeAPIResponse.Thumbnails snip !! "high" = None -> highThumbnail snip = "")
  /\ (forall t, youtubeAPIResponse.Thumbnails snip !! "high" = Some t ->
                highThumbnail snip = youtubeAPIResponse.URL t).
Proof.
  intros Hnet Hst Hdec Hitems snip.
  split; [|split].
  - unfold fetchYouTubeDataAPI. run.
    unfold dataAPIRequest, providerRequest in Hnet. rewrite Hnet.
    rewrite Hst; simpl. rewrite Hdec, Hitems. fold snip.
    unfold highThumbnail.
    by destruct (youtubeAPIResponse.Thumbnails snip !! "high").
  - intros H. unfold highThumbnail. by rewrite H.
  - intros t H. unfold highThumbnail. by rewrite H.
Qed.

(** C1 (as the code has it).  The client has no guard on the ID.  With an
    empty ID it still performs its one call, to the videos endpoint with an
    empty [id] parameter, for every key; the "no video found" error is
    returned exactly when that call yields a decodable 200 response whose
    item list is empty. *)
Theorem fetchYouTubeDataAPI_empty_id (apiKey : string) (net : http.Network) :
  snd (fetchYouTubeDataAPI "" apiKey net) =
    [providerRequest
       ("https://www.googleapis.com/youtube/v3/videos?part=snippet&id=&key=" +:+ apiKey)]
  /\ (fst (fetchYouTubeDataAPI "" apiKey net) = inr (NoVideoFound "") <->
      exists resp,
        net (dataAPIRequest "" apiKey) = Some resp
        /\ http.StatusCode resp = 200
        /\ http.decodeYouTube (http.body resp) = Some (youtubeAPIResponse.mk [])).
Proof.
  split; [apply fetchYouTubeDataAPI_log|].
  unfold fetchYouTubeDataAPI, dataAPIRequest, providerRequest. run.
  destruct (net _) as [resp|] eqn:Hnet; simpl.
  - destruct (http.StatusCode resp =? http.StatusOK) eqn:Hst; simpl.
    + apply Z.eqb_eq in Hst.
      destruct (http.decodeYouTube _) as [[items]|] eqn:Hdec; simpl.
      * destruct items as [|item rest]; simpl.
        -- split; [|reflexivity]. intros _. by exists resp.
        -- split; [discriminate|]. intros (r & [= <-] & _ & H). congruence.
      * split; [discriminate|]. intros (r & [= <-] & _ & H). congruence.
    + apply Z.eqb_neq in Hst.
      split; [discriminate|]. intros (r & [= <-] & H & _). contradiction.
  - split; [discriminate|]. intros (r & H & _). discriminate.
Qed.

(* ===================================================================== *)
(** * The generic path                                                   *)
(* ===================================================================== *)

Lemma genericScrape_request (rawURL : string) (parsedURL : url.URL) (req : http.Request) :
  http.NewRequest "GET" (url.String_ parsedURL) = Some req ->
  http.withTimeout
    (http.HeaderSet
       (http.HeaderSet (http.HeaderSet req "User-Agent" userAgent)
          "Accept-Language" "en-GB,en;q=0.9") "Cache-Control" "no-cache") 10
  = pageRequest parsedURL.
Proof.
  unfold http.NewRequest.
  destruct (url.Parse _); [|discriminate].
  by intros [= <-].
Qed.

(** The generic path performs at most one call, the page fetch. *)
Lemma genericScrape_log (rawURL : string) (parsedURL : url.URL) (net : http.Network) :
  snd (genericScrape rawURL parsedURL net) = []
  \/ snd (genericScrape rawURL parsedURL net) = [pageRequest parsedURL].
Proof.
  unfold genericScrape.
  destruct (http.NewRequest _ _) as [req|] eqn:Hreq; [|by left].
  right. run. rewrite (genericScrape_request rawURL _ _ Hreq).
  destruct (net _) as [resp|]; [|reflexivity].
  destruct (_ || _); [reflexivity|].
  destruct (http.NewDocumentFromReader _); reflexivity.
Qed.

(** A 200 reply of the generic path is the scrape of the fetched page. *)
Lemma genericScrape_200 (rawURL : string) (parsedURL : url.URL) (net : http.Network)
    (meta : Metadata) (log : list http.Request) :
  genericScrape rawURL parsedURL net = (JSON 200 (MetadataJSON meta), log) ->
  exists resp doc,
    net (pageRequest parsedURL) = Some resp
    /\ 200 <= http.StatusCode resp < 300
    /\ http.NewDocumentFromReader (http.body resp) = Some doc
    /\ meta = scrape doc rawURL parsedURL
    /\ log = [pageRequest parsedURL].
Proof.
  unfold genericScrape.
  destruct (http.NewRequest _ _) as [req|] eqn:Hreq; [|discriminate].
  run. rewrite (genericScrape_request rawURL _ _ Hreq).
  destruct (net _) as [resp|] eqn:Hnet; [|discriminate].
  destruct (_ || _) eqn:Hst; [discriminate|].
  destruct (http.NewDocumentFromReader _) as [doc|] eqn:Hdoc; [|discriminate].
  intros [= <- <-]. exists resp, doc.
  apply orb_false_iff in Hst as [H1 H2].
  apply Z.ltb_ge in H1. rewrite Z.geb_leb in H2. apply Z.leb_gt in H2.
  repeat split; try done.
Qed.

(* ===================================================================== *)
(** * The handler                                                        *)
(* ===================================================================== *)

(** The handler on a YouTube URL, by the outcome of each tier. *)
Lemma handler_youtube (ytAPIKey rawURL : string) (parsedURL : url.URL) (net : http.Network) :
  rawURL <> "" ->
  url.ParseRequestURI rawURL = Some parsedURL ->
  isYouTubeURL parsedURL = true ->
  getMetadataHandler ytAPIKey rawURL net =
    match fst (fetchYouTubeOEmbed rawURL net) with
    | inl meta => (JSON 200 (MetadataJSON meta), [oEmbedRequest rawURL])
    | inr _ =>
        if strings.isEmpty ytAPIKey then
          (fst (genericScrape rawURL parsedURL net),
           oEmbedRequest rawURL :: snd (genericScrape rawURL parsedURL net))
        else
          match fst (fetchYouTubeDataAPI (extractYouTubeID parsedURL) ytAPIKey net) with
          | inl idMeta =>
              (JSON 200 (MetadataJSON idMeta),
               [oEmbedRequest rawURL;
                dataAPIRequest (extractYouTubeID parsedURL) ytAPIKey])
          | inr _ =>
              (fst (genericScrape rawURL parsedURL net),
               oEmbedRequest rawURL
                 :: dataAPIRequest (extractYouTubeID parsedURL) ytAPIKey
                 :: snd (genericScrape rawURL parsedURL net))
          end
    end.
Proof.
  intros Hraw Hparse Hyt.
  unfold getMetadataHandler.
  apply isEmpty_false in Hraw. rewrite Hraw, Hparse, Hyt.
  unfold http.bind at 1.
  pose proof (fetchYouTubeOEmbed_log rawURL net) as Hlog1.
  destruct (fetchYouTubeOEmbed rawURL net) as [r1 log1]; simpl in *; subst log1.
  destruct r1 as [meta|e]; [reflexivity|].
  destruct (strings.isEmpty ytAPIKey); simpl.
  - by destruct (genericScrape rawURL parsedURL net).
  - unfold http.bind at 1.
    pose proof (fetchYouTubeDataAPI_log (extractYouTubeID parsedURL) ytAPIKey net) as Hlog2.
    destruct (fetchYouTubeDataAPI _ _ net) as [r2 log2]; simpl in *; subst log2.
    destruct r2 as [idMeta|e2]; [reflexivity|].
    by destruct (genericScrape rawURL parsedURL net).
Qed.

(** The handler on any other accepted URL is the generic path. *)
Lemma handler_generic (ytAPIKey rawURL : string) (parsedURL : url.URL) (net : http.Network) :
  rawURL <> "" ->
  url.ParseRequestURI rawURL = Some parsedURL ->
  isYouTubeURL parsedURL = false ->
  getMetadataHandler ytAPIKey rawURL net = genericScrape rawURL parsedURL net.
Proof.
  intros Hraw Hparse Hyt.
  unfold getMetadataHandler.
  apply isEmpty_false in Hraw. by rewrite Hraw, Hparse, Hyt.
Qed.

Lemma oEmbed_not_dataAPI (videoURL videoID apiKey : string) :
  oEmbedRequest videoURL <> dataAPIRequest videoID apiKey.
Proof.
  unfold oEmbedRequest, dataAPIRequest, providerRequest, oEmbedURL, dataAPIURL.
  intros H. discriminate H.
Qed.

Lemma page_not_dataAPI (parsedURL : url.URL) (videoID apiKey : string) :
  pageRequest parsedURL <> dataAPIRequest videoID apiKey.
Proof. unfold pageRequest, dataAPIRequest, providerRequest. intros H. discriminate H. Qed.

Lemma page_not_oEmbed (parsedURL : url.URL) (videoURL : string) :
  pageRequest parsedURL <> oEmbedRequest videoURL.
Proof. unfold pageRequest, oEmbedRequest, providerRequest. intros H. discriminate H. Qed.

(** Every 200 reply of the handler comes from one of the three tiers. *)
Lemma handler_200 (ytAPIKey rawURL : string) (net : http.Network)
    (meta : Metadata) (log : list http.Request) :
  getMetadataHandler ytAPIKey rawURL net = (JSON 200 (MetadataJSON meta), log) ->
  exists parsedURL,
    rawURL <> ""
    /\ url.ParseRequestURI rawURL = Some parsedURL
    /\ ResolvedBy ytAPIKey rawURL parsedURL net meta log.
Proof.
  intros Hrun.
  destruct (strings.isEmpty rawURL) eqn:Hraw.
  { unfold getMetadataHandler in Hrun. rewrite Hraw in Hrun. discriminate Hrun. }
  apply isEmpty_false in Hraw.
  destruct (url.ParseRequestURI rawURL) as [parsedURL|] eqn:Hparse.
  2:{ unfold getMetadataHandler in Hrun.
      apply isEmpty_false in Hraw. rewrite Hraw, Hparse in Hrun. discriminate Hrun. }
  exists parsedURL. split; [done|]. split; [done|].
  destruct (isYouTubeURL parsedURL) eqn:Hyt.
  - rewrite (handler_youtube _ _ _ _ Hraw Hparse Hyt) in Hrun.
    destruct (fst (fetchYouTubeOEmbed rawURL net)) as [m|e] eqn:Hoe.
    + injection Hrun as <- <-.
      apply fetchYouTubeOEmbed_inl in Hoe as (resp & oe & Hnet & _ & Hdec & Hm).
      by eapply ByOEmbed.
    + destruct (strings.isEmpty ytAPIKey) eqn:Hkey.
      * destruct (genericScrape rawURL parsedURL net) as [reply glog] eqn:Hgen.
        simpl in Hrun. injection Hrun as -> <-.
        apply genericScrape_200 in Hgen as (resp & doc & Hnet & _ & Hdoc & Hm & ->).
        by eapply ByScrape.
      * apply isEmpty_false in Hkey. simpl in Hrun.
        destruct (fst (fetchYouTubeDataAPI _ ytAPIKey net)) as [m|e2] eqn:Hapi.
        -- injection Hrun as <- <-.
           apply fetchYouTubeDataAPI_inl in Hapi
             as (resp & data & item & rest & Hnet & _ & Hdec & Hitems & Hm).
           by eapply ByDataAPI.
        -- destruct (genericScrape rawURL parsedURL net) as [reply glog] eqn:Hgen.
           simpl in Hrun. injection Hrun as -> <-.
           apply genericScrape_200 in Hgen as (resp & doc & Hnet & _ & Hdoc & Hm & ->).
           by eapply ByScrape.
  - rewrite (handler_generic _ _ _ _ Hraw Hparse Hyt) in Hrun.
    apply genericScrape_200 in Hrun as (resp & doc & Hnet & _ & Hdoc & Hm & ->).
    by eapply ByScrape.
Qed.

(** C4.  On a YouTube URL the tiers run in order.  (a) When the oEmbed
    call succeeds its record is the reply and the oEmbed request is the
    only call made.  (b) When it fails, the Data API request is made
    exactly when the key is non-empty, and a successful Data API record is
    the reply.  (c) When oEmbed fails and the key is empty or the Data API
    fails too, the reply is that of the generic path, whose calls (at most
    the page fetch) follow the provider calls. *)
Theorem youtube_tiers_in_order
    (ytAPIKey rawURL : string) (parsedURL : url.URL) (net : http.Network) :
  rawURL <> "" ->
  url.ParseRequestURI rawURL = Some parsedURL ->
  isYouTubeURL parsedURL = true ->
  let videoID := extractYouTubeID parsedURL in
  let oembed := fst (fetchYouTubeOEmbed rawURL net) in
  let api := fst (fetchYouTubeDataAPI videoID ytAPIKey net) in
  let generic := genericScrape rawURL parsedURL net in
  let result := getMetadataHandler ytAPIKey rawURL net in
  (forall meta, oembed = inl meta ->
     result = (JSON 200 (MetadataJSON meta), [oEmbedRequest rawURL]))
  /\ (forall e, oembed = inr e ->
        (dataAPIRequest videoID ytAPIKey ∈ snd result <-> ytAPIKey <> ""))
  /\ (forall e meta, oembed = inr e -> ytAPIKey <> "" -> api = inl meta ->
        result = (JSON 200 (MetadataJSON meta),
                  [oEmbedRequest rawURL; dataAPIRequest videoID ytAPIKey]))
  /\ (forall e, oembed = inr e -> ytAPIKey = "" ->
        result = (fst generic, oEmbedRequest rawURL :: snd generic))
  /\ (forall e e', oembed = inr e -> ytAPIKey <> "" -> api = inr e' ->
        result = (fst generic,
                  oEmbedRequest rawURL :: dataAPIRequest videoID ytAPIKey :: snd generic))
  /\ (snd generic = [] \/ snd generic = [pageRequest parsedURL]).
Proof.
  intros Hraw Hparse Hyt. cbv zeta.
  rewrite (handler_youtube ytAPIKey rawURL parsedURL net Hraw Hparse Hyt).
  pose proof (genericScrape_log rawURL parsedURL net) as Hglog.
  split; [|split; [|split; [|split; [|split]]]].
  - intros meta Hoe. by rewrite Hoe.
  - intros e Hoe. rewrite Hoe. split.
    + intros Hin Hkey. subst ytAPIKey. simpl in Hin.
      apply elem_of_cons in Hin as [Hin|Hin].
      * symmetry in Hin. by eapply oEmbed_not_dataAPI.
      * destruct Hglog as [Hg|Hg]; rewrite Hg in Hin.
        -- by apply elem_of_nil in Hin.
        -- apply list_elem_of_singleton in Hin. symmetry in Hin.
           by eapply page_not_dataAPI.
    + intros Hkey. apply isEmpty_false in Hkey. rewrite Hkey.
      destruct (fst (fetchYouTubeDataAPI _ _ _)); simpl;
        apply elem_of_cons; right; apply elem_of_cons; by left.
  - intros e meta Hoe Hkey Hapi. apply isEmpty_false in Hkey.
    by rewrite Hoe, Hkey, Hapi.
  - intros e Hoe Hkey. subst ytAPIKey. by rewrite Hoe.
  - intros e e' Hoe Hkey Hapi. apply isEmpty_false in Hkey.
    by rewrite Hoe, Hkey, Hapi.
  - exact Hglog.
Qed.

(** C5 (as the code has it).  The handler validates with
    [url.ParseRequestURI].  A request whose url parameter is empty or is
    rejected by that parser is answered with status 400 and an error body,
    and no call is made. *)
Theorem handler_rejects_unparsed (ytAPIKey rawURL : string) (net : http.Network) :
  rawURL = "" \/ url.ParseRequestURI rawURL = None ->
  exists msg,
    getMetadataHandler ytAPIKey rawURL net = (JSON 400 (ErrorJSON msg), []).
Proof.
  intros H. unfold getMetadataHandler.
  destruct (strings.isEmpty rawURL) eqn:Hraw.
  - by eexists.
  - destruct H as [H|H].
    + apply isEmpty_false in Hraw. contradiction.
    + rewrite H. by eexists.
Qed.

(** C2 (as the code has it).  On a 200 reply the url field is the
    non-empty request URL when the record comes from oEmbed or from the
    scrape, and the scraped page_name is non-empty as soon as the parsed
    URL has a host.  The oEmbed page_name is the provider name of the
    response, and the Data API url and page_name are the extracted video ID
    and the channel title, all three copied unchecked. *)
Theorem resolved_url_and_page_name
    (ytAPIKey rawURL : string) (net : http.Network)
    (meta : Metadata) (log : list http.Request) :
  getMetadataHandler ytAPIKey rawURL net = (JSON 200 (MetadataJSON meta), log) ->
  exists parsedURL,
    url.ParseRequestURI rawURL = Some parsedURL
    /\ ((exists resp oe,
           net (oEmbedRequest rawURL) = Some resp
           /\ http.decodeOEmbed (http.body resp) = Some oe
           /\ URL meta = rawURL /\ URL meta <> ""
           /\ PageName meta = oEmbedResponse.Provider oe)
        \/ (exists resp data item rest,
              net (dataAPIRequest (extractYouTubeID parsedURL) ytAPIKey) = Some resp
              /\ http.decodeYouTube (http.body resp) = Some data
              /\ youtubeAPIResponse.Items data = item :: rest
              /\ URL meta = extractYouTubeID parsedURL
              /\ PageName meta =
                   youtubeAPIResponse.ChannelTitle (youtubeAPIResponse.snippet item))
        \/ (exists resp doc,
              net (pageRequest parsedURL) = Some resp
              /\ http.NewDocumentFromReader (http.body resp) = Some doc
              /\ meta = scrape doc rawURL parsedURL
              /\ URL meta = rawURL /\ URL meta <> ""
              /\ (url.Host parsedURL <> "" -> PageName meta <> ""))).
Proof.
  intros Hrun.
  apply handler_200 in Hrun as (parsedURL & Hraw & Hparse & Hby).
  exists parsedURL. split; [done|].
  destruct Hby as [resp oe _ Hnet Hdec -> _
                  |resp data item rest _ _ Hnet Hdec Hitems -> _
                  |resp doc Hnet Hdoc -> _].
  - left. exists resp, oe. by repeat split.
  - right; left. exists resp, data, item, rest. by repeat split.
  - right; right. exists resp, doc. repeat split; try done.
    simpl. intros Hhost.
    destruct (strings.isEmpty (getFirstContent doc ogSiteName)) eqn:Hpn; [done|].
    by apply isEmpty_false in Hpn.
Qed.

(* ===================================================================== *)
(** * Facts about [net/url]: schemes survive parsing, resolution and
      rendering                                                          *)
(* ===================================================================== *)

Section Schemes.
Import strings url.

Lemma append_cons (c : ascii) (s t : string) : String c s +:+ t = String c (s +:+ t).
Proof. reflexivity. Qed.

Lemma append_nil_l (t : string) : "" +:+ t = t.
Proof. reflexivity. Qed.

Lemma append_assoc (s t r : string) : (s +:+ t) +:+ r = s +:+ (t +:+ r).
Proof. induction s as [|c s IH]; [reflexivity|]. rewrite !append_cons. by f_equal. Qed.

Lemma take_append (s t : string) : take (len s) (s +:+ t) = s.
Proof. induction s as [|c s IH]; [by destruct t|]. rewrite append_cons. simpl. by f_equal. Qed.

Lemma len_snoc (s : string) (c : ascii) : len (s +:+ String c "") = S (len s).
Proof. induction s as [|d s IH]; [reflexivity|]. rewrite append_cons. simpl. by f_equal. Qed.

Lemma all_snoc (p : ascii -> bool) (s : string) (c : ascii) :
  all p (s +:+ String c "") = all p s && p c.
Proof.
  induction s as [|d s IH].
  - rewrite append_nil_l. simpl. by rewrite andb_true_r.
  - rewrite append_cons. simpl. rewrite IH. by rewrite andb_assoc.
Qed.

Lemma validScheme_snoc (s : string) (c : ascii) :
  validScheme s = true -> schemeByte c = true -> validScheme (s +:+ String c "") = true.
Proof.
  destruct s as [|d s]; [discriminate|].
  rewrite append_cons. simpl. intros [Hd Hs]%andb_true_iff Hc.
  by rewrite all_snoc, Hd, Hs, Hc.
Qed.

Lemma lowerByte_letter (c : ascii) : isLetter c = true -> isLetter (lowerByte c) = true.
Proof. destruct c as [[] [] [] [] [] [] [] []]; vm_compute; congruence. Qed.

Lemma lowerByte_schemeByte (c : ascii) :
  schemeByte c = true -> schemeByte (lowerByte c) = true.
Proof. destruct c as [[] [] [] [] [] [] [] []]; vm_compute; congruence. Qed.

Lemma ToLower_validScheme (s : string) :
  validScheme s = true -> validScheme (ToLower s) = true.
Proof.
  destruct s as [|c s]; [discriminate|]. simpl.
  intros [Hc Hs]%andb_true_iff. rewrite (lowerByte_letter _ Hc). simpl.
  induction s as [|d s IH]; [reflexivity|]. simpl in *.
  apply andb_true_iff in Hs as [Hd Hs].
  by rewrite (lowerByte_schemeByte _ Hd), IH.
Qed.

(** What [getScheme] returns as a scheme is empty or well formed. *)
Lemma getSchemeAt_valid (rest pre scheme r : string) :
  pre = "" \/ validScheme pre = true ->
  getSchemeAt (pre +:+ rest) (len pre) rest = Some (scheme, r) ->
  scheme = "" \/ validScheme scheme = true.
Proof.
  revert pre. induction rest as [|c rest IH]; intros pre Hpre; simpl.
  { intros [= <- _]. by left. }
  assert (Hsnoc : pre +:+ String c rest = (pre +:+ String c "") +:+ rest).
  { by rewrite append_assoc. }
  assert (Hnext : schemeByte c = true ->
            getSchemeAt (pre +:+ String c rest) (S (len pre)) rest = Some (scheme, r) ->
            (pre = "" -> isLetter c = true) ->
            scheme = "" \/ validScheme scheme = true).
  { intros Hc Hrun Hfirst. rewrite Hsnoc, <- (len_snoc pre c) in Hrun.
    apply IH in Hrun; [done|]. right.
    destruct Hpre as [->|Hpre].
    - simpl. by rewrite Hfirst.
    - by apply validScheme_snoc. }
  destruct (isLetter c) eqn:Hletter.
  { intros Hrun. apply Hnext; [|done..]. unfold schemeByte. by rewrite Hletter. }
  destruct (isDigit c || oneOf c "+-.") eqn:Hother.
  { destruct pre as [|d pre].
    - intros [= <- _]. by left.
    - intros Hrun. apply Hnext; [|done..].
      unfold schemeByte. by rewrite <- orb_assoc, Hother, orb_true_r. }
  destruct (Ascii.eqb c ":").
  { destruct pre as [|d pre]; [discriminate|].
    intros [= <- _]. right.
    rewrite take_append. by destruct Hpre. }
  intros [= <- _]. by left.
Qed.

Lemma getScheme_valid (rawURL scheme r : string) :
  getScheme rawURL = Some (scheme, r) -> scheme = "" \/ validScheme scheme = true.
Proof. unfold getScheme. apply (getSchemeAt_valid rawURL ""). by left. Qed.

Lemma append_nil_r (s : string) : s +:+ "" = s.
Proof. induction s as [|c s IH]; [reflexivity|]. rewrite append_cons. by f_equal. Qed.

(** A well-formed scheme followed by a colon is found again. *)
Lemma getSchemeAt_found (suf pre tail : string) :
  pre <> "" ->
  all schemeByte suf = true ->
  getSchemeAt (pre +:+ suf +:+ String ":" tail) (len pre) (suf +:+ String ":" tail)
  = Some (pre +:+ suf, tail).
Proof.
  revert pre. induction suf as [|c suf IH]; intros pre Hpre Hall.
  - rewrite !append_nil_l, append_nil_r. simpl.
    destruct pre as [|d pre]; [done|].
    by rewrite take_append.
  - simpl in Hall. apply andb_true_iff in Hall as [Hc Hall].
    rewrite !append_cons.
    assert (Hsnoc : pre +:+ String c (suf +:+ String ":" tail)
                    = (pre +:+ String c "") +:+ suf +:+ String ":" tail).
    { by rewrite append_assoc. }
    assert (Hres : pre +:+ String c suf = (pre +:+ String c "") +:+ suf).
    { by rewrite append_assoc. }
    assert (Hne : pre +:+ String c "" <> "").
    { destruct pre; discriminate. }
    assert (Hnext : getSchemeAt (pre +:+ String c (suf +:+ String ":" tail))
                      (S (len pre)) (suf +:+ String ":" tail)
                    = Some (pre +:+ String c suf, tail)).
    { rewrite Hsnoc, Hres, <- (len_snoc pre c). by apply IH. }
    simpl. unfold schemeByte in Hc.
    destruct (isLetter c) eqn:Hletter; [done|].
    simpl in Hc. rewrite Hc.
    destruct pre as [|d pre]; [done|]. exact Hnext.
Qed.

Lemma hasScheme_prefix (scheme tail : string) :
  validScheme scheme = true -> hasScheme (scheme +:+ ":" +:+ tail) = true.
Proof.
  destruct scheme as [|c suf]; [discriminate|]. simpl.
  intros [Hc Hall]%andb_true_iff.
  unfold hasScheme, getScheme.
  pose proof (getSchemeAt_found suf (String c "") tail) as H.
  rewrite !append_cons, !append_nil_l in H.
  change (":" +:+ tail) with (String ":" tail).
  rewrite append_cons. simpl. rewrite Hc.
  simpl in H. rewrite H; [reflexivity|discriminate|done].
Qed.

Lemma setPath_Scheme (u u' : URL) (p : string) :
  setPath u p = Some u' -> Scheme u' = Scheme u.
Proof.
  unfold setPath. destruct (unescape p encodePath); simpl; [|discriminate].
  by intros [= <-].
Qed.

Lemma setFragment_Scheme (u u' : URL) (f : string) :
  setFragment u f = Some u' -> Scheme u' = Scheme u.
Proof.
  unfold setFragment. destruct (unescape f encodeFragment); simpl; [|discriminate].
  by intros [= <-].
Qed.

(** The scheme of a parsed URL is empty or well formed. *)
Lemma parse_Scheme (rawURL : string) (viaRequest : bool) (u : URL) :
  parse rawURL viaRequest = Some u -> Scheme u = "" \/ validScheme (Scheme u) = true.
Proof.
  unfold parse.
  destruct (stringContainsCTLByte rawURL); [discriminate|].
  destruct (isEmpty rawURL && viaRequest); [discriminate|].
  destruct (String.eqb rawURL "*"); [intros [= <-]; by left|].
  destruct (getScheme rawURL) as [[scheme rest]|] eqn:Hscheme; simpl; [|discriminate].
  assert (Hvalid : ToLower scheme = "" \/ validScheme (ToLower scheme) = true).
  { apply getScheme_valid in Hscheme as [->|H]; [by left|right].
    by apply ToLower_validScheme. }
  destruct (if HasSuffix rest "?" && Nat.eqb (CountByte rest "?") 1
            then (take (len rest - 1) rest, true, "")
            else let '(r, q, _) := Cut rest "?" in (r, false, q))
    as [[rest' forceQuery] rawQuery].
  destruct (negb (HasPrefix rest' "/") && negb (isEmpty (ToLower scheme))).
  { by intros [= <-]. }
  destruct (negb (HasPrefix rest' "/") && viaRequest); [discriminate|].
  destruct (negb (HasPrefix rest' "/") && _); [discriminate|].
  destruct ((negb (isEmpty (ToLower scheme)) || _) && HasPrefix rest' "//").
  - match goal with
    | |- context [let '(_, _) := ?p in _] => destruct p as [authority rest0]
    end.
    destruct (parseAuthority authority) as [[user host]|]; simpl; [|discriminate].
    intros H%setPath_Scheme. by rewrite H.
  - intros H%setPath_Scheme. by rewrite H.
Qed.

Lemma Parse_Scheme (rawURL : string) (u : URL) :
  Parse rawURL = Some u -> Scheme u = "" \/ validScheme (Scheme u) = true.
Proof.
  unfold Parse. destruct (Cut rawURL "#") as [[raw frag] found].
  destruct (parse raw false) as [u0|] eqn:Hparse; simpl; [|discriminate].
  apply parse_Scheme in Hparse.
  destruct (isEmpty frag).
  - by intros [= <-].
  - intros H%setFragment_Scheme. by rewrite H.
Qed.

Lemma setPath'_Scheme (u : URL) (p : string) : Scheme (setPath' u p) = Scheme u.
Proof.
  unfold setPath'. destruct (setPath u p) eqn:H; [|done]. by apply setPath_Scheme in H.
Qed.

(** Resolution keeps the scheme of the reference, or else takes the base's. *)
Lemma ResolveReference_Scheme (u ref : URL) :
  Scheme (ResolveReference u ref) = if isEmpty (Scheme ref) then Scheme u else Scheme ref.
Proof.
  unfold ResolveReference.
  repeat match goal with
         | |- context [if ?b then _ else _] =>
             lazymatch b with
             | isEmpty (Scheme ref) => fail
             | _ => destruct b
             end
         end; rewrite ?setPath'_Scheme; reflexivity.
Qed.

(** The rendering of a URL with a scheme opens with that scheme. *)
Lemma String_Scheme (u : URL) :
  Scheme u <> "" -> exists tail, String_ u = Scheme u +:+ ":" +:+ tail.
Proof.
  intros Hs. apply isEmpty_false in Hs.
  unfold String_. rewrite Hs.
  repeat match goal with
         | |- context [if ?b then _ else _] => destruct b
         | |- context [match ?o with Some _ => _ | None => _ end] => destruct o
         | |- context [match ?c with (_, _) => _ end] => destruct c
         end;
    rewrite ?append_assoc; eexists; reflexivity.
Qed.

End Schemes.

(** An image source resolved against an absolute request URL is an
    absolute URL. *)
Lemma resolvedSrc_hasScheme (rawURL : string) (parsedURL : url.URL)
    (n : goquery.Node) (image : string) :
  url.ParseRequestURI rawURL = Some parsedURL ->
  url.IsAbs parsedURL = true ->
  resolvedSrc parsedURL n = Some image ->
  hasScheme image = true.
Proof.
  intros Hparse Habs. unfold resolvedSrc.
  destruct (goquery.Attr [n] "src") as [src|]; simpl; [|discriminate].
  destruct (url.Parse src) as [ref|] eqn:Hsrc; simpl; [|discriminate].
  intros [= <-].
  set (target := url.ResolveReference parsedURL ref).
  assert (Hvalid : validScheme (url.Scheme target) = true).
  { unfold target. rewrite ResolveReference_Scheme.
    apply parse_Scheme in Hparse. apply Parse_Scheme in Hsrc.
    unfold url.IsAbs in Habs. apply negb_true_iff in Habs.
    destruct (strings.isEmpty (url.Scheme ref)) eqn:Href.
    - destruct Hparse as [H|H]; [|done]. rewrite H in Habs. discriminate.
    - destruct Hsrc as [H|H]; [|done]. rewrite H in Href. discriminate. }
  destruct (String_Scheme target) as [tail ->].
  - intros H. rewrite H in Hvalid. discriminate.
  - by apply hasScheme_prefix.
Qed.

(* ===================================================================== *)
(** * The scrape of a page                                               *)
(* ===================================================================== *)

(** The first tag of a selection decides [getFirstContent]. *)
Lemma getFirstContent_cons (doc : goquery.Document) (selector : goquery.Selector)
    (n : goquery.Node) (rest : list goquery.Node) :
  goquery.Find doc selector = n :: rest ->
  getFirstContent doc selector =
    match contentOf n with
    | Some content => strings.TrimSpace content
    | None => ""
    end.
Proof. intros H. unfold getFirstContent. by rewrite H. Qed.

Lemma getFirstContent_nil (doc : goquery.Document) (selector : goquery.Selector) :
  goquery.Find doc selector = [] -> getFirstContent doc selector = "".
Proof. intros H. unfold getFirstContent. by rewrite H. Qed.

(** C6 (as the code has it).  The title of a scraped page is the trimmed
    content of the first og:title tag when that tag has a content attribute
    whose trimmed value is not empty, whatever the title elements say.  In
    every other case (no og:title tag, a first tag without content, or with
    blank content) it is the trimmed text of the title elements of the
    document, concatenated in document order. *)
Theorem scrape_title (doc : goquery.Document) (rawURL : string) (parsedURL : url.URL) :
  let plain := strings.TrimSpace (goquery.Text (goquery.Find doc (goquery.Tag "title"))) in
  let title := Title (scrape doc rawURL parsedURL) in
  (forall n rest content,
     goquery.Find doc ogTitle = n :: rest ->
     contentOf n = Some content ->
     strings.TrimSpace content <> "" ->
     title = strings.TrimSpace content)
  /\ (goquery.Find doc ogTitle = [] -> title = plain)
  /\ (forall n rest,
        goquery.Find doc ogTitle = n :: rest ->
        contentOf n = None \/
        (exists content, contentOf n = Some content /\ strings.TrimSpace content = "") ->
        title = plain).
Proof.
  cbv zeta. unfold scrape; simpl.
  split; [|split].
  - intros n rest content Hfind Hcontent Hne.
    rewrite (getFirstContent_cons _ _ _ _ Hfind), Hcontent.
    apply isEmpty_false in Hne. by rewrite Hne.
  - intros Hfind. by rewrite (getFirstContent_nil _ _ Hfind).
  - intros n rest Hfind H.
    rewrite (getFirstContent_cons _ _ _ _ Hfind).
    destruct H as [->|(content & -> & ->)]; reflexivity.
Qed.

(** C10.  When at least one og:image tag carries a content attribute, the
    images of the scraped page are the content values of exactly those
    tags, verbatim and in document order; an empty content gives an empty
    entry, and no image element contributes. *)
Theorem og_images_verbatim (doc : goquery.Document) (rawURL : string) (parsedURL : url.URL) :
  omap contentOf (goquery.Find doc ogImage) <> [] ->
  Images (scrape doc rawURL parsedURL) = omap contentOf (goquery.Find doc ogImage)
  /\ (forall n, n ∈ goquery.Find doc ogImage -> contentOf n = Some "" ->
                "" ∈ Images (scrape doc rawURL parsedURL)).
Proof.
  intros Hne. rewrite scrape_Images.
  destruct (omap contentOf (goquery.Find doc ogImage)) as [|x og] eqn:Hog; [done|].
  rewrite <- Hog. split; [done|].
  intros n Hin Hcontent. apply list_elem_of_omap. by exists n.
Qed.

(** C7 (as the code has it).  On a page without og:image tags the images
    are the sources of the image elements, in document order, each parsed
    as a URL reference and resolved against the request URL; elements
    without a source, or whose source does not parse, are skipped.  When
    the request URL is absolute so is every entry.  The source "/a.png"
    resolved against "https://x.test/p" is "https://x.test/a.png". *)
Theorem img_sources_resolved (doc : goquery.Document) (rawURL : string) (parsedURL : url.URL) :
  url.ParseRequestURI rawURL = Some parsedURL ->
  goquery.Find doc ogImage = [] ->
  Images (scrape doc rawURL parsedURL)
    = omap (resolvedSrc parsedURL) (goquery.Find doc (goquery.Tag "img"))
  /\ (url.IsAbs parsedURL = true ->
      Forall (fun image => hasScheme image = true) (Images (scrape doc rawURL parsedURL)))
  /\ (base ← url.ParseRequestURI "https://x.test/p";
      ref ← url.Parse "/a.png";
      Some (url.String_ (url.ResolveReference base ref))) = Some "https://x.test/a.png".
Proof.
  intros Hparse Hfind. rewrite scrape_Images, Hfind. simpl.
  split; [done|]. split; [|by vm_compute].
  intros Habs. apply Forall_forall. intros image Hin.
  apply list_elem_of_omap in Hin as (n & _ & Hn).
  by eapply resolvedSrc_hasScheme.
Qed.

(** C3 (as the code has it).  The images of every resolved record are in
    discovery order: the one thumbnail of the provider response on the
    provider tiers; on the generic tier the og:image contents in document
    order, verbatim, or, when there are none, the parseable image sources
    in document order, each resolved against the request URL and therefore
    absolute when the request URL is. *)
Theorem resolved_images
    (ytAPIKey rawURL : string) (net : http.Network)
    (meta : Metadata) (log : list http.Request) :
  getMetadataHandler ytAPIKey rawURL net = (JSON 200 (MetadataJSON meta), log) ->
  exists parsedURL,
    url.ParseRequestURI rawURL = Some parsedURL
    /\ ((exists resp oe,
           net (oEmbedRequest rawURL) = Some resp
           /\ http.decodeOEmbed (http.body resp) = Some oe
           /\ Images meta = [oEmbedResponse.ThumbnailURL oe])
        \/ (exists resp data item rest,
              net (dataAPIRequest (extractYouTubeID parsedURL) ytAPIKey) = Some resp
              /\ http.decodeYouTube (http.body resp) = Some data
              /\ youtubeAPIResponse.Items data = item :: rest
              /\ Images meta = [highThumbnail (youtubeAPIResponse.snippet item)])
        \/ (exists resp doc,
              net (pageRequest parsedURL) = Some resp
              /\ http.NewDocumentFromReader (http.body resp) = Some doc
              /\ let og := omap contentOf (goquery.Find doc ogImage) in
                 let srcs := omap (resolvedSrc parsedURL)
                                  (goquery.Find doc (goquery.Tag "img")) in
                 (og <> [] -> Images meta = og)
                 /\ (og = [] -> Images meta = srcs)
                 /\ (og = [] -> url.IsAbs parsedURL = true ->
                     Forall (fun image => hasScheme image = true) (Images meta)))).
Proof.
  intros Hrun.
  apply handler_200 in Hrun as (parsedURL & Hraw & Hparse & Hby).
  exists parsedURL. split; [done|].
  destruct Hby as [resp oe _ Hnet Hdec -> _
                  |resp data item rest _ _ Hnet Hdec Hitems -> _
                  |resp doc Hnet Hdoc -> _].
  - left. by exists resp, oe.
  - right; left. by exists resp, data, item, rest.
  - right; right. exists resp, doc. split; [done|]. split; [done|].
    cbv zeta. rewrite scrape_Images.
    destruct (omap contentOf (goquery.Find doc ogImage)) as [|x og]; simpl.
    + split; [done|]. split; [done|]. intros _ Habs.
      apply Forall_forall. intros image Hin.
      apply list_elem_of_omap in Hin as (n & _ & Hn).
      by eapply resolvedSrc_hasScheme.
    + by repeat split.
Qed.

(* ===================================================================== *)
(** * More on the provider clients                                       *)
(* ===================================================================== *)

(** X7.  The oEmbed client fails exactly when its one call does not yield
    a decodable 200 response: a transport error or any other status (also
    another 2xx) is reported as the oEmbed error without reading the body,
    a 200 body that does not decode as the decoder's error. *)
Theorem fetchYouTubeOEmbed_failure (videoURL : string) (net : http.Network) :
  let result := fst (fetchYouTubeOEmbed videoURL net) in
  (result = inr oEmbedError <->
     net (oEmbedRequest videoURL) = None
     \/ exists resp, net (oEmbedRequest videoURL) = Some resp /\ http.StatusCode resp <> 200)
  /\ (result = inr DecodeError <->
        exists resp, net (oEmbedRequest videoURL) = Some resp
                     /\ http.StatusCode resp = 200
                     /\ http.decodeOEmbed (http.body resp) = None)
  /\ (forall e, result = inr e -> e = oEmbedError \/ e = DecodeError).
Proof.
  cbv zeta. unfold fetchYouTubeOEmbed, oEmbedRequest, providerRequest. run.
  destruct (net _) as [resp|] eqn:Hnet; simpl.
  - destruct (http.StatusCode resp =? http.StatusOK) eqn:Hst; simpl.
    + apply Z.eqb_eq in Hst.
      destruct (http.decodeOEmbed _) as [oe|] eqn:Hdec; simpl.
      * split; [|split].
        -- split; [discriminate|]. intros [?|(r & [= <-] & ?)]; [discriminate|done].
        -- split; [discriminate|]. intros (r & [= <-] & _ & ?). congruence.
        -- discriminate.
      * split; [|split].
        -- split; [discriminate|]. intros [?|(r & [= <-] & ?)]; [discriminate|done].
        -- split; [|done]. intros _. by exists resp.
        -- intros e [= <-]. by right.
    + apply Z.eqb_neq in Hst. split; [|split].
      * split; [|done]. intros _. right. by exists resp.
      * split; [discriminate|]. intros (r & [= <-] & ? & _). done.
      * intros e [= <-]. by left.
  - split; [|split].
    + split; [|done]. intros _. by left.
    + split; [discriminate|]. intros (r & ? & _). discriminate.
    + intros e [= <-]. by left.
Qed.

(** X8.  The Data API client fails exactly when its one call does not
    yield a decodable 200 response with at least one item; each way of
    failing has its own error, and the "no video found" error names the ID
    that was asked for. *)
Theorem fetchYouTubeDataAPI_failure (videoID apiKey : string) (net : http.Network) :
  let result := fst (fetchYouTubeDataAPI videoID apiKey net) in
  let req := dataAPIRequest videoID apiKey in
  (result = inr YouTubeAPIError <->
     net req = None \/ exists resp, net req = Some resp /\ http.StatusCode resp <> 200)
  /\ (result = inr DecodeError <->
        exists resp, net req = Some resp /\ http.StatusCode resp = 200
                     /\ http.decodeYouTube (http.body resp) = None)
  /\ (forall id, result = inr (NoVideoFound id) <->
        id = videoID
        /\ exists resp data, net req = Some resp /\ http.StatusCode resp = 200
                             /\ http.decodeYouTube (http.body resp) = Some data
                             /\ youtubeAPIResponse.Items data = [])
  /\ (result <> inr oEmbedError).
Proof.
  cbv zeta. unfold fetchYouTubeDataAPI, dataAPIRequest, providerRequest. run.
  destruct (net _) as [resp|] eqn:Hnet; simpl.
  - destruct (http.StatusCode resp =? http.StatusOK) eqn:Hst; simpl.
    + apply Z.eqb_eq in Hst.
      destruct (http.decodeYouTube _) as [data|] eqn:Hdec; simpl.
      * destruct (youtubeAPIResponse.Items data) as [|item rest] eqn:Hitems; simpl.
        -- split; [|split; [|split]]; [| | |discriminate].
           ++ split; [discriminate|]. intros [?|(r & [= <-] & ?)]; [discriminate|done].
           ++ split; [discriminate|]. intros (r & [= <-] & _ & ?). congruence.
           ++ intros id. split.
              ** intros [= <-]. split; [done|]. by exists resp, data.
              ** by intros [-> _].
        -- split; [|split; [|split]]; [| | |discriminate].
           ++ split; [discriminate|]. intros [?|(r & [= <-] & ?)]; [discriminate|done].
           ++ split; [discriminate|]. intros (r & [= <-] & _ & ?). congruence.
           ++ intros id. split; [discriminate|].
              intros [_ (r & d & [= <-] & _ & Hd & Hi)]. congruence.
      * split; [|split; [|split]]; [| | |discriminate].
        -- split; [discriminate|]. intros [?|(r & [= <-] & ?)]; [discriminate|done].
        -- split; [|done]. intros _. by exists resp.
        -- intros id. split; [discriminate|].
           intros [_ (r & d & [= <-] & _ & Hd & _)]. congruence.
    + apply Z.eqb_neq in Hst. split; [|split; [|split]]; [| | |discriminate].
      * split; [|done]. intros _. right. by exists resp.
      * split; [discriminate|]. intros (r & [= <-] & ? & _). done.
      * intros id. split; [discriminate|].
        intros [_ (r & d & [= <-] & ? & _)]. done.
  - split; [|split; [|split]]; [| | |discriminate].
    + split; [|done]. intros _. by left.
    + split; [discriminate|]. intros (r & ? & _). discriminate.
    + intros id. split; [discriminate|]. intros [_ (r & d & ? & _)]. discriminate.
Qed.

(* ===================================================================== *)
(** * More on the generic path and the handler                           *)
(* ===================================================================== *)

(** The reply of the generic path, case by case. *)
Lemma genericScrape_cases (rawURL : string) (parsedURL : url.URL) (net : http.Network) :
  genericScrape rawURL parsedURL net =
    match url.Parse (url.String_ parsedURL) with
    | None => (JSON 500 (ErrorJSON "failed to create request"), [])
    | Some _ =>
        (match net (pageRequest parsedURL) with
         | None => JSON 502 (ErrorJSON "failed to fetch target")
         | Some resp =>
             if (http.StatusCode resp <? 200) || (http.StatusCode resp >=? 300)
             then JSON 502 (ErrorJSON "failed to fetch target")
             else match http.NewDocumentFromReader (http.body resp) with
                  | None => JSON 500 (ErrorJSON "failed to parse html")
                  | Some doc => JSON 200 (MetadataJSON (scrape doc rawURL parsedURL))
                  end
         end,
         [pageRequest parsedURL])
    end.
Proof.
  unfold genericScrape, http.NewRequest.
  destruct (url.Parse _) as [u|] eqn:Hparse; [|reflexivity].
  run. change (http.withTimeout _ 10) with (pageRequest parsedURL).
  destruct (net _) as [resp|]; [|reflexivity].
  destruct (_ || _); [reflexivity|].
  destruct (http.NewDocumentFromReader _); reflexivity.
Qed.

Lemma outside_2xx (code : Z) :
  (code <? 200) || (code >=? 300) = true <-> code < 200 \/ 300 <= code.
Proof. rewrite orb_true_iff, Z.ltb_lt, Z.geb_leb, Z.leb_le. tauto. Qed.

Lemma inside_2xx (code : Z) :
  (code <? 200) || (code >=? 300) = false <-> 200 <= code < 300.
Proof. rewrite orb_false_iff, Z.ltb_ge, Z.geb_leb, Z.leb_gt. tauto. Qed.

(** X6.  On an accepted URL that is not a YouTube URL the handler makes
    the page fetch and nothing else, unless the rendered URL does not parse
    again, in which case it answers 500 "failed to create request" without
    any call.  After the fetch it answers 502 exactly when the fetch failed
    or the status is outside 200..299 (the body is then not read), 500
    "failed to parse html" exactly when a 2xx body does not parse, and 200
    with the scrape of the document otherwise. *)
Theorem generic_fetch_outcome
    (ytAPIKey rawURL : string) (parsedURL : url.URL) (net : http.Network) :
  rawURL <> "" ->
  url.ParseRequestURI rawURL = Some parsedURL ->
  isYouTubeURL parsedURL = false ->
  let reply := fst (getMetadataHandler ytAPIKey rawURL net) in
  let log := snd (getMetadataHandler ytAPIKey rawURL net) in
  let answer := net (pageRequest parsedURL) in
  (url.Parse (url.String_ parsedURL) = None ->
     reply = JSON 500 (ErrorJSON "failed to create request") /\ log = [])
  /\ (url.Parse (url.String_ parsedURL) <> None ->
      log = [pageRequest parsedURL]
      /\ (reply = JSON 502 (ErrorJSON "failed to fetch target") <->
            answer = None
            \/ exists resp, answer = Some resp
                 /\ (http.StatusCode resp < 200 \/ 300 <= http.StatusCode resp))
      /\ (reply = JSON 500 (ErrorJSON "failed to parse html") <->
            exists resp, answer = Some resp
                 /\ 200 <= http.StatusCode resp < 300
                 /\ http.NewDocumentFromReader (http.body resp) = None)
      /\ (forall meta, reply = JSON 200 (MetadataJSON meta) <->
            exists resp doc, answer = Some resp
                 /\ 200 <= http.StatusCode resp < 300
                 /\ http.NewDocumentFromReader (http.body resp) = Some doc
                 /\ meta = scrape doc rawURL parsedURL)).
Proof.
  intros Hraw Hparse Hyt. cbv zeta.
  rewrite (handler_generic _ _ _ _ Hraw Hparse Hyt), genericScrape_cases.
  destruct (url.Parse (url.String_ parsedURL)) as [u|]; [|by split].
  split; [discriminate|]. intros _. simpl. split; [reflexivity|].
  destruct (net (pageRequest parsedURL)) as [resp|] eqn:Hnet.
  - destruct ((http.StatusCode resp <? 200) || (http.StatusCode resp >=? 300)) eqn:Hst.
    + apply outside_2xx in Hst. split; [|split].
      * split; [|done]. intros _. right. by exists resp.
      * split; [discriminate|]. intros (r & [= <-] & ? & _). lia.
      * intros meta. split; [discriminate|]. intros (r & d & [= <-] & ? & _). lia.
    + apply inside_2xx in Hst.
      destruct (http.NewDocumentFromReader (http.body resp)) as [doc|] eqn:Hdoc.
      * split; [|split].
        -- split; [discriminate|]. intros [?|(r & [= <-] & ?)]; [discriminate|lia].
        -- split; [discriminate|]. intros (r & [= <-] & _ & ?). congruence.
        -- intros meta. split.
           ++ intros [= <-]. by exists resp, doc.
           ++ intros (r & d & [= <-] & _ & Hd & ->). congruence.
      * split; [|split].
        -- split; [discriminate|]. intros [?|(r & [= <-] & ?)]; [discriminate|lia].
        -- split; [|done]. intros _. by exists resp.
        -- intros meta. split; [discriminate|].
           intros (r & d & [= <-] & _ & Hd & _). congruence.
  - split; [|split].
    + split; [|done]. intros _. by left.
    + split; [discriminate|]. intros (r & ? & _). discriminate.
    + intros meta. split; [discriminate|]. intros (r & d & ? & _). discriminate.
Qed.

Lemma genericScrape_taxonomy (rawURL : string) (parsedURL : url.URL) (net : http.Network) :
  replyInTaxonomy (fst (genericScrape rawURL parsedURL net))
  /\ status (fst (genericScrape rawURL parsedURL net)) <> 400.
Proof.
  rewrite genericScrape_cases. unfold replyInTaxonomy, errorReplies.
  destruct (url.Parse _); simpl.
  - destruct (net _) as [resp|]; simpl.
    + destruct (_ || _); simpl.
      * split; [set_solver|done].
      * destruct (http.NewDocumentFromReader _); simpl; split; try done; set_solver.
    + split; [set_solver|done].
  - split; [set_solver|done].
Qed.

(** The handler in the three ways it can go. *)
Lemma handler_cases (ytAPIKey rawURL : string) (net : http.Network) :
  (rawURL = "" /\ getMetadataHandler ytAPIKey rawURL net
                  = (JSON 400 (ErrorJSON "missing url parameter"), []))
  \/ (rawURL <> "" /\ url.ParseRequestURI rawURL = None
      /\ getMetadataHandler ytAPIKey rawURL net = (JSON 400 (ErrorJSON "invalid url"), []))
  \/ (exists parsedURL, rawURL <> "" /\ url.ParseRequestURI rawURL = Some parsedURL).
Proof.
  unfold getMetadataHandler.
  destruct (strings.isEmpty rawURL) eqn:Hraw.
  - apply isEmpty_true in Hraw. by left.
  - apply isEmpty_false in Hraw. right.
    destruct (url.ParseRequestURI rawURL) as [u|]; [right; by exists u|by left].
Qed.

(** On an accepted URL the reply is that of a provider tier, with status
    200, or that of the generic path. *)
Lemma handler_reply_source (ytAPIKey rawURL : string) (parsedURL : url.URL)
    (net : http.Network) :
  rawURL <> "" ->
  url.ParseRequestURI rawURL = Some parsedURL ->
  (exists meta, fst (getMetadataHandler ytAPIKey rawURL net) = JSON 200 (MetadataJSON meta))
  \/ fst (getMetadataHandler ytAPIKey rawURL net) = fst (genericScrape rawURL parsedURL net).
Proof.
  intros Hraw Hparse.
  destruct (isYouTubeURL parsedURL) eqn:Hyt.
  - rewrite (handler_youtube _ _ _ _ Hraw Hparse Hyt).
    destruct (fst (fetchYouTubeOEmbed rawURL net)) as [m|e]; [left; by exists m|].
    destruct (strings.isEmpty ytAPIKey); [by right|].
    destruct (fst (fetchYouTubeDataAPI _ _ _)) as [m|e2]; [left; by exists m|by right].
  - rewrite (handler_generic _ _ _ _ Hraw Hparse Hyt). by right.
Qed.

(** X3.  Every reply of the handler is either a 200 with a complete
    Metadata record or one of five error replies (two with status 400, two
    with 500, one with 502), each with an error body.  The errors of the
    two YouTube clients are never among them. *)
Theorem handler_reply_taxonomy (ytAPIKey rawURL : string) (net : http.Network) :
  match fst (getMetadataHandler ytAPIKey rawURL net) with
  | JSON code (MetadataJSON _) => code = 200
  | JSON code (ErrorJSON msg) => (code, msg) ∈ errorReplies
  end.
Proof.
  destruct (handler_cases ytAPIKey rawURL net) as [[_ ->]|[(_ & _ & ->)|(u & Hraw & Hparse)]].
  - unfold errorReplies. simpl. set_solver.
  - unfold errorReplies. simpl. set_solver.
  - destruct (handler_reply_source ytAPIKey rawURL u net Hraw Hparse) as [[m ->]| ->].
    + reflexivity.
    + pose proof (genericScrape_taxonomy rawURL u net) as [H _].
      unfold replyInTaxonomy in H.
      by destruct (fst (genericScrape rawURL u net)) as [code [msg|m]].
Qed.

(** X4.  The handler answers 400 exactly when the url parameter is empty
    or rejected by [url.ParseRequestURI]; in that case it makes no call,
    and the body tells the two cases apart. *)
Theorem handler_400_iff (ytAPIKey rawURL : string) (net : http.Network) :
  let reply := fst (getMetadataHandler ytAPIKey rawURL net) in
  (status reply = 400 <-> rawURL = "" \/ url.ParseRequestURI rawURL = None)
  /\ (status reply = 400 -> snd (getMetadataHandler ytAPIKey rawURL net) = [])
  /\ (reply = JSON 400 (ErrorJSON "missing url parameter") <-> rawURL = "")
  /\ (reply = JSON 400 (ErrorJSON "invalid url") <->
        rawURL <> "" /\ url.ParseRequestURI rawURL = None).
Proof.
  cbv zeta.
  destruct (handler_cases ytAPIKey rawURL net) as [[Hraw ->]|[(Hraw & Hp & ->)|(u & Hraw & Hp)]];
    simpl.
  - split; [|split; [|split]].
    + split; [by left|done].
    + done.
    + done.
    + split; [discriminate|]. by intros [? _].
  - split; [|split; [|split]].
    + split; [by right|done].
    + done.
    + split; [discriminate|done].
    + done.
  - assert (Hne : status (fst (getMetadataHandler ytAPIKey rawURL net)) <> 400).
    { destruct (handler_reply_source ytAPIKey rawURL u net Hraw Hp) as [[m ->]| ->].
      - done.
      - apply genericScrape_taxonomy. }
    split; [|split; [|split]].
    + split; [done|]. intros [?|?]; [done|congruence].
    + done.
    + split; [|done]. intros H. rewrite H in Hne. done.
    + split; [|intros [_ ?]; congruence]. intros H. rewrite H in Hne. done.
Qed.

(** The log of a run on an accepted URL is a sublist of the three possible
    calls. *)
Lemma handler_log_sublist
    (ytAPIKey rawURL : string) (parsedURL : url.URL) (net : http.Network) :
  rawURL <> "" ->
  url.ParseRequestURI rawURL = Some parsedURL ->
  let log := snd (getMetadataHandler ytAPIKey rawURL net) in
  let oembed := oEmbedRequest rawURL in
  let api := dataAPIRequest (extractYouTubeID parsedURL) ytAPIKey in
  let page := pageRequest parsedURL in
  sublist log [oembed; api; page]
  /\ (isYouTubeURL parsedURL = false -> sublist log [page])
  /\ (isYouTubeURL parsedURL = true -> head log = Some oembed)
  /\ (ytAPIKey = "" -> sublist log [oembed; page]).
Proof.
  intros Hraw Hparse. cbv zeta.
  assert (Hgen : forall l, sublist [pageRequest parsedURL] l ->
                           sublist (snd (genericScrape rawURL parsedURL net)) l).
  { intros l Hl. destruct (genericScrape_log rawURL parsedURL net) as [-> | ->].
    - apply sublist_nil_l.
    - done. }
  destruct (isYouTubeURL parsedURL) eqn:Hyt.
  - rewrite (handler_youtube _ _ _ _ Hraw Hparse Hyt).
    destruct (fst (fetchYouTubeOEmbed rawURL net)) as [m|e]; simpl.
    { repeat split; try done.
      - apply sublist_skip, sublist_nil_l.
      - intros _. apply sublist_skip, sublist_nil_l. }
    destruct (strings.isEmpty ytAPIKey) eqn:Hkey; simpl.
    + repeat split; try done.
      * apply sublist_skip, sublist_cons, Hgen. done.
      * intros _. apply sublist_skip, Hgen. done.
    + apply isEmpty_false in Hkey.
      destruct (fst (fetchYouTubeDataAPI _ _ _)) as [m|e2]; simpl.
      * repeat split; try done.
        apply sublist_skip, sublist_skip, sublist_nil_l.
      * repeat split; try done.
        apply sublist_skip, sublist_skip, Hgen. done.
  - rewrite (handler_generic _ _ _ _ Hraw Hparse Hyt).
    repeat split; try done.
    + apply Hgen. by apply sublist_cons, sublist_cons.
    + intros _. by apply Hgen.
    + intros _. apply Hgen. by apply sublist_cons.
Qed.

(** X5.  The calls of one run are taken, in this order and each at most
    once, from: the oEmbed request, the Data API request, the page fetch.
    A URL that is not a YouTube URL leads to the page fetch at most; on a
    YouTube URL the oEmbed request always comes first; without a key the
    Data API request is never made. *)
Theorem handler_calls_in_order
    (ytAPIKey rawURL : string) (parsedURL : url.URL) (net : http.Network) :
  rawURL <> "" ->
  url.ParseRequestURI rawURL = Some parsedURL ->
  let log := snd (getMetadataHandler ytAPIKey rawURL net) in
  let oembed := oEmbedRequest rawURL in
  let api := dataAPIRequest (extractYouTubeID parsedURL) ytAPIKey in
  let page := pageRequest parsedURL in
  sublist log [oembed; api; page]
  /\ (length log <= 3)%nat
  /\ (isYouTubeURL parsedURL = false -> sublist log [page])
  /\ (isYouTubeURL parsedURL = true -> head log = Some oembed)
  /\ (ytAPIKey = "" -> sublist log [oembed; page]).
Proof.
  intros Hraw Hparse. cbv zeta.
  destruct (handler_log_sublist ytAPIKey rawURL parsedURL net Hraw Hparse)
    as (Hall & Hgeneric & Hfirst & Hnokey).
  split; [done|]. split; [|done].
  apply sublist_length in Hall. simpl in Hall. lia.
Qed.

(* ===================================================================== *)
(** * The server around the handler                                      *)
(* ===================================================================== *)

Lemma apiKeyAuthMiddleware_cases (expectedKey : string) (next : echo.HandlerFunc)
    (c : echo.Context) (net : http.Network) :
  apiKeyAuthMiddleware expectedKey next c net =
    if String.eqb (echo.HeaderGet c "X-API-Key") expectedKey
       && negb (strings.isEmpty expectedKey)
    then next c net
    else (JSON 401 (ErrorJSON "invalid or missing API key"), []).
Proof.
  unfold apiKeyAuthMiddleware.
  destruct (String.eqb_spec (echo.HeaderGet c "X-API-Key") expectedKey) as [->|Hne]; simpl.
  - destruct (strings.isEmpty expectedKey); reflexivity.
  - rewrite orb_true_r. reflexivity.
Qed.

(** X1.  The middleware runs the wrapped handler exactly on the requests
    whose X-API-Key header is non-empty and equal to the expected key.
    Every other request is answered 401 with an error body whatever the
    wrapped handler is, and no call is made.  With an empty expected key
    that is every request. *)
Theorem apiKeyAuthMiddleware_gate (expectedKey : string) (next : echo.HandlerFunc)
    (c : echo.Context) (net : http.Network) :
  let key := echo.HeaderGet c "X-API-Key" in
  let unauthorized := (JSON 401 (ErrorJSON "invalid or missing API key"), []) in
  (key <> "" -> key = expectedKey ->
     apiKeyAuthMiddleware expectedKey next c net = next c net)
  /\ (key = "" \/ key <> expectedKey ->
      apiKeyAuthMiddleware expectedKey next c net = unauthorized)
  /\ (expectedKey = "" ->
      apiKeyAuthMiddleware expectedKey next c net = unauthorized).
Proof.
  cbv zeta. rewrite apiKeyAuthMiddleware_cases.
  split; [|split].
  - intros Hkey Heq. rewrite Heq in *. rewrite String.eqb_refl.
    apply isEmpty_false in Hkey. by rewrite Hkey.
  - intros [Hkey|Hne].
    + destruct (String.eqb_spec (echo.HeaderGet c "X-API-Key") expectedKey) as [Heq|]; [|done].
      rewrite <- Heq, Hkey. reflexivity.
    + apply String.eqb_neq in Hne. by rewrite Hne.
  - intros ->. simpl. by rewrite andb_false_r.
Qed.




(* ===================================================================== *)
(** * More on the scrape of a page                                       *)
(* ===================================================================== *)

(** X10.  The page name of a scraped page is the trimmed content of the
    first og:site_name tag when that is not empty; in every other case it
    is the Host of the parsed request URL, port included, whatever later
    og:site_name tags say. *)
Theorem scrape_page_name (doc : goquery.Document) (rawURL : string) (parsedURL : url.URL) :
  let pageName := PageName (scrape doc rawURL parsedURL) in
  (forall n rest content,
     goquery.Find doc ogSiteName = n :: rest ->
     contentOf n = Some content ->
     strings.TrimSpace content <> "" ->
     pageName = strings.TrimSpace content)
  /\ (goquery.Find doc ogSiteName = [] -> pageName = url.Host parsedURL)
  /\ (forall n rest,
        goquery.Find doc ogSiteName = n :: rest ->
        contentOf n = None \/
        (exists content, contentOf n = Some content /\ strings.TrimSpace content = "") ->
        pageName = url.Host parsedURL).
Proof.
  cbv zeta. unfold scrape; simpl.
  split; [|split].
  - intros n rest content Hfind Hcontent Hne.
    rewrite (getFirstContent_cons _ _ _ _ Hfind), Hcontent.
    apply isEmpty_false in Hne. by rewrite Hne.
  - intros Hfind. by rewrite (getFirstContent_nil _ _ Hfind).
  - intros n rest Hfind H.
    rewrite (getFirstContent_cons _ _ _ _ Hfind).
    destruct H as [->|(content & -> & ->)]; reflexivity.
Qed.

(** X11.  The description of a scraped page is the first og:description
    content, trimmed, when that is not empty; otherwise it is whatever the
    first meta tag named "description" gives: its trimmed content, or the
    empty string when there is no such tag or the tag has no content. *)
Theorem scrape_description (doc : goquery.Document) (rawURL : string) (parsedURL : url.URL) :
  let description := Description (scrape doc rawURL parsedURL) in
  (forall n rest content,
     goquery.Find doc ogDescription = n :: rest ->
     contentOf n = Some content ->
     strings.TrimSpace content <> "" ->
     description = strings.TrimSpace content)
  /\ (getFirstContent doc ogDescription = "" ->
      (goquery.Find doc metaDescription = [] -> description = "")
      /\ (forall n rest,
            goquery.Find doc metaDescription = n :: rest ->
            description = match contentOf n with
                          | Some content => strings.TrimSpace content
                          | None => ""
                          end))
  /\ (goquery.Find doc ogDescription = [] -> getFirstContent doc ogDescription = "")
  /\ (forall n rest,
        goquery.Find doc ogDescription = n :: rest ->
        contentOf n = None \/
        (exists content, contentOf n = Some content /\ strings.TrimSpace content = "") ->
        getFirstContent doc ogDescription = "").
Proof.
  cbv zeta. unfold scrape; simpl.
  split; [|split; [|split]].
  - intros n rest content Hfind Hcontent Hne.
    rewrite (getFirstContent_cons _ _ _ _ Hfind), Hcontent.
    apply isEmpty_false in Hne. by rewrite Hne.
  - intros ->. simpl. split.
    + intros Hfind. by rewrite (getFirstContent_nil _ _ Hfind).
    + intros n rest Hfind. by rewrite (getFirstContent_cons _ _ _ _ Hfind).
  - apply getFirstContent_nil.
  - intros n rest Hfind H.
    rewrite (getFirstContent_cons _ _ _ _ Hfind).
    destruct H as [->|(content & -> & ->)]; reflexivity.
Qed.

(* ===================================================================== *)
(** * Facts about [strings]                                              *)
(* ===================================================================== *)

Section StringFacts.
Import strings.

Lemma rev_onto_append (s acc : string) : rev_onto s acc = rev s +:+ acc.
Proof.
  unfold rev. revert acc. induction s as [|c s IH]; intros acc; simpl; [reflexivity|].
  rewrite IH, (IH (String c "")), append_assoc. reflexivity.
Qed.

Lemma rev_cons (c : ascii) (s : string) : rev (String c s) = rev s +:+ String c "".
Proof. unfold rev at 1. simpl. apply rev_onto_append. Qed.

Lemma rev_append (a b : string) : rev (a +:+ b) = rev b +:+ rev a.
Proof.
  induction a as [|c a IH].
  - rewrite append_nil_l. by rewrite append_nil_r.
  - rewrite append_cons, !rev_cons, IH, append_assoc. reflexivity.
Qed.

Lemma rev_involutive (s : string) : rev (rev s) = s.
Proof.
  induction s as [|c s IH]; [reflexivity|].
  rewrite rev_cons, rev_append, IH. reflexivity.
Qed.

Lemma take_drop (n : nat) (s : string) : take n s +:+ drop n s = s.
Proof.
  revert s. induction n as [|n IH]; intros [|c s]; simpl; try reflexivity.
  rewrite append_cons. by f_equal.
Qed.

Lemma HasPrefix_iff (s p : string) : HasPrefix s p = true <-> exists t, s = p +:+ t.
Proof.
  revert s. induction p as [|c p IH]; intros s; simpl.
  - split; [|by destruct s]. intros _. by exists s.
  - destruct s as [|d s]; simpl.
    + split; [discriminate|]. intros [t H]. discriminate H.
    + rewrite andb_true_iff, IH. split.
      * intros [Hc [t ->]]. apply Ascii.eqb_eq in Hc as ->. by exists t.
      * intros [t H]. rewrite append_cons in H. injection H as -> ->.
        split; [apply Ascii.eqb_refl|by exists t].
Qed.

Lemma HasPrefix_append (p q r : string) :
  HasPrefix p r = true -> HasPrefix (p +:+ q) r = true.
Proof.
  rewrite !HasPrefix_iff. intros [t ->]. exists (t +:+ q). by rewrite append_assoc.
Qed.

Lemma Index_cons (c : ascii) (s x : string) :
  Index (String c s) x
  = if HasPrefix (String c s) x then Some O else S <$> Index s x.
Proof. reflexivity. Qed.

Lemma Index_sound (s x : string) (i : nat) :
  Index s x = Some i -> exists a b, s = a +:+ x +:+ b.
Proof.
  revert i. induction s as [|c s IH]; intros i.
  - destruct x; [|discriminate]. intros _. by exists "", "".
  - rewrite Index_cons. destruct (HasPrefix (String c s) x) eqn:Hp.
    + intros _. apply HasPrefix_iff in Hp as [t Ht]. by exists "", t.
    + destruct (Index s x) as [j|]; [|discriminate].
      intros _. destruct (IH j eq_refl) as (a & b & ->).
      by exists (String c a), b.
Qed.

Lemma Index_complete (a x b : string) : exists i, Index (a +:+ x +:+ b) x = Some i.
Proof.
  induction a as [|c a [j IH]].
  - rewrite append_nil_l.
    assert (Hp : HasPrefix (x +:+ b) x = true) by (apply HasPrefix_iff; by exists b).
    exists O. destruct (x +:+ b) as [|d t].
    + by destruct x.
    + by rewrite Index_cons, Hp.
  - rewrite append_cons, Index_cons.
    destruct (HasPrefix _ x); [by eexists|].
    rewrite IH. by eexists.
Qed.

Lemma Contains_iff (s x : string) :
  Contains s x = true <-> exists a b, s = a +:+ x +:+ b.
Proof.
  unfold Contains. split.
  - destruct (Index s x) as [i|] eqn:H; [|discriminate].
    intros _. by eapply Index_sound.
  - intros (a & b & ->). destruct (Index_complete a x b) as [i ->]. reflexivity.
Qed.

Lemma Contains_take (n : nat) (s x : string) :
  Contains (take n s) x = true -> Contains s x = true.
Proof.
  rewrite !Contains_iff. intros (a & b & H).
  exists a, (b +:+ drop n s).
  rewrite <- (take_drop n s) at 1. rewrite H, !append_assoc. reflexivity.
Qed.

Lemma Contains_drop (n : nat) (s x : string) :
  Contains (drop n s) x = true -> Contains s x = true.
Proof.
  rewrite !Contains_iff. intros (a & b & H).
  exists (take n s +:+ a), b.
  rewrite <- (take_drop n s) at 1. rewrite H, !append_assoc. reflexivity.
Qed.

(** The hostname is cut out of the host. *)
Lemma Hostname_in_Host (u : url.URL) (x : string) :
  Contains (url.Hostname u) x = true -> Contains (url.Host u) x = true.
Proof.
  unfold url.Hostname.
  set (host := match LastIndex (url.Host u) ":" with
               | Some colon =>
                   if url.validOptionalPort (drop colon (url.Host u))
                   then take colon (url.Host u) else url.Host u
               | None => url.Host u
               end).
  assert (Hhost : Contains host x = true -> Contains (url.Host u) x = true).
  { unfold host. destruct (LastIndex _ _) as [colon|]; [|done].
    destruct (url.validOptionalPort _); [apply Contains_take|done]. }
  intros H. apply Hhost.
  destruct (HasPrefix host "[" && HasSuffix host "]"); [|done].
  by apply Contains_take, Contains_drop in H.
Qed.

(** Stripping removes a prefix. *)
Lemma stripOne_suffix (runes : list string) (s s' : string) :
  stripOne runes s = Some s' -> exists pre, s = pre +:+ s'.
Proof.
  induction runes as [|r runes IH]; simpl; [discriminate|].
  destruct (HasPrefix s r); [|exact IH].
  intros [= <-]. exists (take (len r) s). by rewrite take_drop.
Qed.

Lemma stripAll_suffix (fuel : nat) (runes : list string) (s : string) :
  exists pre, s = pre +:+ stripAll fuel runes s.
Proof.
  revert s. induction fuel as [|fuel IH]; intros s; simpl; [by exists ""|].
  destruct (stripOne runes s) as [s'|] eqn:H; [|by exists ""].
  apply stripOne_suffix in H as [pre1 ->].
  destruct (IH s') as [pre2 Hs']. exists (pre1 +:+ pre2).
  rewrite append_assoc. by rewrite <- Hs'.
Qed.

Lemma stripOne_append (runes : list string) (p q : string) :
  stripOne runes (p +:+ q) = None -> stripOne runes p = None.
Proof.
  induction runes as [|r runes IH]; simpl; [done|].
  destruct (HasPrefix p r) eqn:Hp.
  - by rewrite (HasPrefix_append _ q _ Hp).
  - destruct (HasPrefix (p +:+ q) r); [discriminate|exact IH].
Qed.

(** [TrimSpace] leaves a string with no space rune at either end. *)
Lemma TrimSpace_trimmed (s : string) : trimmed (TrimSpace s).
Proof.
  unfold trimmed, TrimSpace, TrimRightSpace.
  set (t := TrimLeftSpace s).
  set (x := stripAll (len t) (map rev spaceRunes) (rev t)).
  split.
  - destruct (stripAll_suffix (len t) (map rev spaceRunes) (rev t)) as [pre Hpre].
    fold x in Hpre.
    assert (Ht : t = rev x +:+ rev pre).
    { by rewrite <- rev_append, <- Hpre, rev_involutive. }
    apply (stripOne_append _ _ (rev pre)). rewrite <- Ht. apply TrimLeftSpace_done.
  - rewrite rev_involutive. apply stripAll_done.
    + unfold spaceRunes. simpl. repeat constructor; discriminate.
    + by rewrite len_rev.
Qed.

Lemma trimmed_empty : trimmed "".
Proof. split; reflexivity. Qed.

End StringFacts.

Lemma getFirstContent_trimmed (doc : goquery.Document) (selector : goquery.Selector) :
  trimmed (getFirstContent doc selector).
Proof.
  unfold getFirstContent.
  destruct (goquery.Attr _ _); [apply TrimSpace_trimmed|apply trimmed_empty].
Qed.

(** X12.  Whatever the page, the title and the description of a scraped
    record neither begin nor end with white space (in the sense of
    [unicode.IsSpace]), and the same holds for the page name when it comes
    from an og:site_name tag rather than from the host. *)
Theorem scrape_fields_trimmed (doc : goquery.Document) (rawURL : string)
    (parsedURL : url.URL) :
  trimmed (Title (scrape doc rawURL parsedURL))
  /\ trimmed (Description (scrape doc rawURL parsedURL))
  /\ (getFirstContent doc ogSiteName <> "" ->
      trimmed (PageName (scrape doc rawURL parsedURL))).
Proof.
  unfold scrape; simpl. split; [|split].
  - destruct (strings.isEmpty (getFirstContent doc ogTitle));
      [apply TrimSpace_trimmed|apply getFirstContent_trimmed].
  - destruct (strings.isEmpty (getFirstContent doc ogDescription));
      apply getFirstContent_trimmed.
  - intros Hne. apply isEmpty_false in Hne. rewrite Hne. apply getFirstContent_trimmed.
Qed.

(** X14.  A URL whose hostname contains "youtu.be" is a YouTube URL, and
    its video ID is its path without the one leading slash: the query plays
    no part, and an empty or bare "/" path gives the empty ID.  (The
    classifier looks at the hostname and the extractor at the host with its
    port; the first is cut out of the second, so the two agree.) *)
Theorem short_link_id (u : url.URL) :
  strings.Contains (url.Hostname u) "youtu.be" = true ->
  isYouTubeURL u = true
  /\ extractYouTubeID u = strings.TrimPrefix (url.Path u) "/"
  /\ (forall id, url.Path u = "/" +:+ id -> extractYouTubeID u = id)
  /\ (url.Path u = "" -> extractYouTubeID u = "").
Proof.
  intros Hhost.
  assert (Hid : extractYouTubeID u = strings.TrimPrefix (url.Path u) "/").
  { unfold extractYouTubeID. by rewrite (Hostname_in_Host _ _ Hhost). }
  split; [|split; [done|split]].
  - unfold isYouTubeURL. rewrite Hhost. apply orb_true_r.
  - intros id Hpath. rewrite Hid, Hpath.
    change ("/" +:+ id) with (String "/" id).
    unfold strings.TrimPrefix. simpl. by destruct id.
  - intros Hpath. by rewrite Hid, Hpath.
Qed.

(* ===================================================================== *)
(** * Facts about bytes, escaping and the parsing of plain https URLs    *)
(* ===================================================================== *)

Section ByteFacts.
Import strings.

Lemma all_append (p : ascii -> bool) (a b : string) :
  all p (a +:+ b) = all p a && all p b.
Proof.
  induction a as [|c a IH]; [reflexivity|].
  rewrite append_cons. simpl. by rewrite IH, andb_assoc.
Qed.

Lemma all_impl (p q : ascii -> bool) (s : string) :
  (forall c, p c = true -> q c = true) -> all p s = true -> all q s = true.
Proof.
  intros Hpq. induction s as [|c s IH]; simpl; [done|].
  intros [Hc Hs]%andb_true_iff. by rewrite (Hpq _ Hc), IH.
Qed.

Lemma all_rev (p : ascii -> bool) (s : string) : all p (rev s) = all p s.
Proof.
  induction s as [|c s IH]; [reflexivity|].
  rewrite rev_cons, all_append, IH. simpl. rewrite andb_true_r. apply andb_comm.
Qed.

Lemma any_not_all (p : ascii -> bool) (s : string) :
  all (fun c => negb (p c)) s = true -> any p s = false.
Proof.
  induction s as [|c s IH]; simpl; [done|].
  intros [Hc Hs]%andb_true_iff. apply negb_true_iff in Hc. by rewrite Hc, IH.
Qed.

Lemma len_append (a b : string) : (len (a +:+ b) = len a + len b)%nat.
Proof. induction a as [|c a IH]; [reflexivity|]. rewrite append_cons. simpl. by f_equal. Qed.

Lemma drop_append (a b : string) (n : nat) : drop (len a + n) (a +:+ b) = drop n b.
Proof. induction a as [|c a IH]; [reflexivity|]. rewrite append_cons. simpl. apply IH. Qed.

Lemma HasPrefix_byte (c d : ascii) (s : string) :
  HasPrefix (String d s) (String c "") = Ascii.eqb c d.
Proof. simpl. destruct s; by rewrite andb_true_r. Qed.

Lemma noByte_HasPrefix (c : ascii) (s : string) :
  noByte c s = true -> HasPrefix s (String c "") = false.
Proof.
  destruct s as [|d s]; [reflexivity|]. rewrite HasPrefix_byte. unfold noByte. simpl.
  intros [Hd _]%andb_true_iff. apply negb_true_iff in Hd. by rewrite Ascii.eqb_sym.
Qed.

Lemma Index_byte_none (c : ascii) (s : string) :
  noByte c s = true -> Index s (String c "") = None.
Proof.
  induction s as [|d s IH]; [reflexivity|].
  intros H. rewrite Index_cons, (noByte_HasPrefix _ _ H).
  unfold noByte in H. simpl in H. apply andb_true_iff in H as [_ H].
  by rewrite (IH H).
Qed.

Lemma Index_byte_found (c : ascii) (a b : string) :
  noByte c a = true -> Index (a +:+ String c b) (String c "") = Some (len a).
Proof.
  induction a as [|d a IH].
  - intros _. rewrite append_nil_l, Index_cons, HasPrefix_byte, Ascii.eqb_refl. reflexivity.
  - intros H. rewrite append_cons, Index_cons.
    change (String d (a +:+ String c b)) with (String d a +:+ String c b).
    assert (Hp : HasPrefix (String d a +:+ String c b) (String c "") = false).
    { rewrite append_cons, HasPrefix_byte. unfold noByte in H. simpl in H.
      apply andb_true_iff in H as [Hd _]. apply negb_true_iff in Hd.
      by rewrite Ascii.eqb_sym. }
    rewrite Hp. unfold noByte in H. simpl in H. apply andb_true_iff in H as [_ H].
    by rewrite (IH H).
Qed.

Lemma Cut_byte_none (c : ascii) (s : string) :
  noByte c s = true -> Cut s (String c "") = (s, "", false).
Proof. intros H. unfold Cut. by rewrite (Index_byte_none _ _ H). Qed.

Lemma Cut_byte_found (c : ascii) (a b : string) :
  noByte c a = true -> Cut (a +:+ String c b) (String c "") = (a, b, true).
Proof.
  intros H. unfold Cut. rewrite (Index_byte_found _ _ _ H).
  rewrite take_append, drop_append. reflexivity.
Qed.

Lemma Contains_byte_none (c : ascii) (s : string) :
  noByte c s = true -> Contains s (String c "") = false.
Proof. intros H. unfold Contains. by rewrite (Index_byte_none _ _ H). Qed.

Lemma noByte_append (c : ascii) (a b : string) :
  noByte c (a +:+ b) = noByte c a && noByte c b.
Proof. apply all_append. Qed.

Lemma HasSuffix_noByte (c : ascii) (a b : string) :
  b <> "" -> noByte c b = true -> HasSuffix (a +:+ b) (String c "") = false.
Proof.
  intros Hb Hc. unfold HasSuffix. rewrite rev_append.
  change (rev (String c "")) with (String c "").
  assert (Hrev : noByte c (rev b) = true) by (unfold noByte; by rewrite all_rev).
  destruct (rev b) as [|d t] eqn:Hd.
  - apply (f_equal rev) in Hd. rewrite rev_involutive in Hd. done.
  - rewrite append_cons, HasPrefix_byte. unfold noByte in Hrev. simpl in Hrev.
    apply andb_true_iff in Hrev as [H _]. apply negb_true_iff in H.
    by rewrite Ascii.eqb_sym.
Qed.

End ByteFacts.

Section EscapeFacts.
Import strings url.

(** What [QueryEscape] writes, byte by byte. *)
Lemma escape_query_byte (c : ascii) (s : string) :
  escape (String c s) encodeQueryComponent
  = (if Ascii.eqb c " " then "+"
     else if shouldEscape c encodeQueryComponent
          then String "%" (String (upperhex (code c / 16))
                             (String (upperhex (code c mod 16)) ""))
          else String c "")
    +:+ escape s encodeQueryComponent.
Proof.
  simpl. destruct (Ascii.eqb c " "); simpl; [reflexivity|].
  destruct (shouldEscape c encodeQueryComponent); reflexivity.
Qed.

Lemma QueryEscape_bytes (s : string) : all escapedByte (QueryEscape s) = true.
Proof.
  unfold QueryEscape. induction s as [|c s IH]; [reflexivity|].
  rewrite escape_query_byte, all_append, IH, andb_true_r.
  destruct c as [[] [] [] [] [] [] [] []]; vm_compute; reflexivity.
Qed.

Lemma unescape_query_byte (c : ascii) (s : string) :
  let piece := if Ascii.eqb c " " then "+"
               else if shouldEscape c encodeQueryComponent
                    then String "%" (String (upperhex (code c / 16))
                                       (String (upperhex (code c mod 16)) ""))
                    else String c "" in
  wellEscaped encodeQueryComponent (piece +:+ s) = wellEscaped encodeQueryComponent s
  /\ decode encodeQueryComponent (piece +:+ s)
     = String c (decode encodeQueryComponent s).
Proof.
  destruct c as [[] [] [] [] [] [] [] []]; split; reflexivity.
Qed.

(** Round trip: what [QueryEscape] writes, [QueryUnescape] reads back. *)
Lemma QueryUnescape_QueryEscape (s : string) : QueryUnescape (QueryEscape s) = Some s.
Proof.
  unfold QueryUnescape, QueryEscape, unescape.
  assert (H : wellEscaped encodeQueryComponent (escape s encodeQueryComponent) = true
              /\ decode encodeQueryComponent (escape s encodeQueryComponent) = s).
  { induction s as [|c s [IH1 IH2]]; [by split|].
    rewrite escape_query_byte.
    destruct (unescape_query_byte c (escape s encodeQueryComponent)) as [-> ->].
    by rewrite IH1, IH2. }
  destruct H as [-> ->]. reflexivity.
Qed.

(** Escaped bytes are none of the delimiters, and no control bytes. *)
Lemma escapedByte_plain (c : ascii) :
  escapedByte c = true ->
  negb (Ascii.eqb c "#") = true /\ negb (Ascii.eqb c "?") = true
  /\ negb (Ascii.eqb c "&") = true /\ negb (Ascii.eqb c ";") = true
  /\ negb (Ascii.eqb c "=") = true /\ negb (Ascii.eqb c "/") = true
  /\ negb ((code c <? 32)%N || (code c =? 127)%N) = true.
Proof. destruct c as [[] [] [] [] [] [] [] []]; vm_compute; intuition congruence. Qed.

Lemma escaped_noByte (c : ascii) (s : string) :
  c = "#"%char \/ c = "?"%char \/ c = "&"%char \/ c = ";"%char \/ c = "="%char
  \/ c = "/"%char ->
  all escapedByte s = true -> noByte c s = true.
Proof.
  intros Hc. apply all_impl. intros x Hx.
  destruct (escapedByte_plain x Hx) as (H1 & H2 & H3 & H4 & H5 & H6 & _).
  destruct Hc as [->|[->|[->|[->|[->| ->]]]]]; assumption.
Qed.

Lemma escaped_noCTL (s : string) :
  all escapedByte s = true -> stringContainsCTLByte s = false.
Proof.
  intros H. apply any_not_all. revert H. apply all_impl. intros x Hx.
  by destruct (escapedByte_plain x Hx) as (_ & _ & _ & _ & _ & _ & H).
Qed.

(** The bytes of an ID are written and read back unchanged in every mode
    the program meets. *)
Lemma idByte_plain (c : ascii) :
  idByte c = true ->
  escapedByte c = true
  /\ negb (Ascii.eqb c "%") = true /\ negb (Ascii.eqb c "+") = true
  /\ shouldEscape c encodePath = false
  /\ shouldEscape c encodeQueryComponent = false.
Proof. destruct c as [[] [] [] [] [] [] [] []]; vm_compute; intuition congruence. Qed.

(** A string without '%' is well escaped, outside the host modes, and
    without '+' as well it decodes to itself. *)
Lemma unescape_plain (s : string) (mode : encoding) :
  isHostMode mode = false ->
  noByte "%" s = true -> noByte "+" s = true ->
  unescape s mode = Some s.
Proof.
  intros Hmode Hpct Hplus. unfold unescape.
  assert (H : wellEscaped mode s = true /\ decode mode s = s).
  { induction s as [|c s IH]; [by split|].
    unfold noByte in *. simpl in Hpct, Hplus.
    apply andb_true_iff in Hpct as [Hc1 Hpct].
    apply andb_true_iff in Hplus as [Hc2 Hplus].
    destruct (IH Hpct Hplus) as [IH1 IH2].
    apply negb_true_iff in Hc1, Hc2.
    simpl. rewrite Hc1, Hc2, Hmode, IH1, IH2. by split. }
  destruct H as [-> ->]. reflexivity.
Qed.

Lemma escape_plain (s : string) (mode : encoding) :
  all (fun c => negb (shouldEscape c mode)) s = true -> escape s mode = s.
Proof.
  induction s as [|c s IH]; [reflexivity|]. simpl.
  intros [Hc Hs]%andb_true_iff. apply negb_true_iff in Hc.
  rewrite Hc, (IH Hs).
  destruct (Ascii.eqb_spec c " ") as [->|_]; [|reflexivity].
  destruct mode; try reflexivity. discriminate Hc.
Qed.

End EscapeFacts.

Section PlainURLs.
Import strings url.

Lemma CTL_append (a b : string) :
  stringContainsCTLByte (a +:+ b) = stringContainsCTLByte a || stringContainsCTLByte b.
Proof.
  unfold stringContainsCTLByte. induction a as [|c a IH]; [reflexivity|].
  rewrite append_cons. simpl. by rewrite IH, orb_assoc.
Qed.

Lemma parse_httpsURL (viaRequest : bool) (host path query : string) :
  parseAuthority host = Some (None, host) ->
  noByte "/" host = true -> noByte "?" host = true ->
  stringContainsCTLByte host = false ->
  HasPrefix path "/" = true -> noByte "?" path = true ->
  stringContainsCTLByte path = false ->
  unescape path encodePath = Some path -> escape path encodePath = path ->
  query <> "" -> noByte "?" query = true -> stringContainsCTLByte query = false ->
  parse (httpsURL host path query) viaRequest
  = Some (mkURL "https" "" None host path "" false false query "" "").
Proof.
  intros Hauth Hh1 Hh2 Hh3 Hp1 Hp2 Hp3 Hp4 Hp5 Hq1 Hq2 Hq3.
  apply HasPrefix_iff in Hp1 as [p' Hpath].
  change ("/" +:+ p') with (String "/" p') in Hpath.
  set (A := "//" +:+ host +:+ path).
  assert (Hrest : "//" +:+ host +:+ path +:+ String "?" query = A +:+ String "?" query).
  { unfold A. by rewrite !append_assoc. }
  assert (HA : noByte "?" A = true).
  { unfold A. by rewrite !noByte_append, Hh2, Hp2. }
  assert (Hsuffix : HasSuffix (A +:+ String "?" query) "?" = false).
  { assert (A +:+ String "?" query = (A +:+ "?") +:+ query) as ->.
    { by rewrite append_assoc. }
    by apply HasSuffix_noByte. }
  assert (Hslash : HasPrefix A "/" = true).
  { apply HasPrefix_iff. by eexists. }
  assert (Hslash2 : HasPrefix A "//" = true).
  { apply HasPrefix_iff. by eexists. }
  assert (Hindex : Index (host +:+ path) "/" = Some (len host)).
  { rewrite Hpath. by apply Index_byte_found. }
  unfold parse, httpsURL.
  rewrite !CTL_append, Hh3, Hp3.
  change (stringContainsCTLByte (String "?" query)) with (stringContainsCTLByte query).
  rewrite Hq3.
  change (stringContainsCTLByte "https://") with false.
  change (isEmpty ("https://" +:+ host +:+ path +:+ String "?" query)) with false.
  change (("https://" +:+ host +:+ path +:+ String "?" query) =? "*")%string with false.
  change (getScheme ("https://" +:+ host +:+ path +:+ String "?" query))
    with (Some ("https", "//" +:+ host +:+ path +:+ String "?" query)).
  rewrite Hrest. cbn [orb andb mbind option_bind].
  rewrite Hsuffix, (Cut_byte_found _ _ _ HA). cbn [andb].
  rewrite Hslash, Hslash2.
  change (ToLower "https") with "https". cbn [negb andb orb isEmpty].
  change (drop 2 A) with (host +:+ path).
  rewrite Hindex, take_append.
  rewrite <- (Nat.add_0_r (len host)), drop_append. cbn [drop].
  rewrite Hauth. cbn [mbind option_bind].
  unfold setPath. rewrite Hp4. cbn [mbind option_bind].
  rewrite Hp5, String.eqb_refl. reflexivity.
Qed.

Lemma parse_httpsPlainURL (viaRequest : bool) (host path : string) :
  parseAuthority host = Some (None, host) ->
  noByte "/" host = true -> noByte "?" host = true ->
  stringContainsCTLByte host = false ->
  HasPrefix path "/" = true -> noByte "?" path = true ->
  stringContainsCTLByte path = false ->
  unescape path encodePath = Some path -> escape path encodePath = path ->
  parse (httpsPlainURL host path) viaRequest
  = Some (mkURL "https" "" None host path "" false false "" "" "").
Proof.
  intros Hauth Hh1 Hh2 Hh3 Hp1 Hp2 Hp3 Hp4 Hp5.
  apply HasPrefix_iff in Hp1 as [p' Hpath].
  change ("/" +:+ p') with (String "/" p') in Hpath.
  set (A := "//" +:+ host +:+ path).
  assert (HA : noByte "?" A = true).
  { unfold A. by rewrite !noByte_append, Hh2, Hp2. }
  assert (Hsuffix : HasSuffix A "?" = false).
  { rewrite <- (append_nil_l A). by apply HasSuffix_noByte. }
  assert (Hslash : HasPrefix A "/" = true).
  { apply HasPrefix_iff. by eexists. }
  assert (Hslash2 : HasPrefix A "//" = true).
  { apply HasPrefix_iff. by eexists. }
  assert (Hindex : Index (host +:+ path) "/" = Some (len host)).
  { rewrite Hpath. by apply Index_byte_found. }
  unfold parse, httpsPlainURL.
  rewrite !CTL_append, Hh3, Hp3.
  change (stringContainsCTLByte "https://") with false.
  change (isEmpty ("https://" +:+ host +:+ path)) with false.
  change (("https://" +:+ host +:+ path) =? "*")%string with false.
  change (getScheme ("https://" +:+ host +:+ path)) with (Some ("https", A)).
  cbn [orb andb mbind option_bind].
  rewrite Hsuffix, (Cut_byte_none _ _ HA). cbn [andb].
  rewrite Hslash, Hslash2.
  change (ToLower "https") with "https". cbn [negb andb orb isEmpty].
  change (drop 2 A) with (host +:+ path).
  rewrite Hindex, take_append.
  rewrite <- (Nat.add_0_r (len host)), drop_append. cbn [drop].
  rewrite Hauth. cbn [mbind option_bind].
  unfold setPath. rewrite Hp4. cbn [mbind option_bind].
  rewrite Hp5, String.eqb_refl. reflexivity.
Qed.

(** Without a '#' there is no fragment to split off. *)
Lemma Parse_no_fragment (rawURL : string) :
  noByte "#" rawURL = true -> Parse rawURL = parse rawURL false.
Proof.
  intros H. unfold Parse. rewrite (Cut_byte_none _ _ H).
  destruct (parse rawURL false); reflexivity.
Qed.

Lemma parseQuery_S (fuel : nat) (m : Values) (query : string) :
  parseQuery (S fuel) m query =
    if isEmpty query then m
    else
      let '(key, query', _) := Cut query "&" in
      if Contains key ";" then parseQuery fuel m query'
      else if isEmpty key then parseQuery fuel m query'
      else
        let '(key, value, _) := Cut key "=" in
        match QueryUnescape key, QueryUnescape value with
        | Some key, Some value =>
            parseQuery fuel (<[key := default [] (m !! key) ++ [value]]> m) query'
        | _, _ => parseQuery fuel m query'
        end.
Proof. reflexivity. Qed.

Lemma parseQuery_nil (fuel : nat) (m : Values) : parseQuery fuel m "" = m.
Proof. by destruct fuel. Qed.

(** One round of [parseQuery] on a well-formed pair. *)
Lemma parseQuery_pair (fuel : nat) (m : Values) (kraw vraw k v : string) :
  kraw <> "" ->
  noByte "&" kraw = true -> noByte ";" kraw = true -> noByte "=" kraw = true ->
  noByte "&" vraw = true -> noByte ";" vraw = true ->
  QueryUnescape kraw = Some k -> QueryUnescape vraw = Some v ->
  (forall rest,
     parseQuery (S fuel) m (kraw +:+ String "=" vraw +:+ String "&" rest)
     = parseQuery fuel (<[k := default [] (m !! k) ++ [v]]> m) rest)
  /\ parseQuery (S fuel) m (kraw +:+ String "=" vraw)
     = <[k := default [] (m !! k) ++ [v]]> m.
Proof.
  intros Hk Hk1 Hk2 Hk3 Hv1 Hv2 Huk Huv.
  assert (Hpair1 : noByte "&" (kraw +:+ String "=" vraw) = true).
  { rewrite noByte_append, Hk1. exact Hv1. }
  assert (Hpair2 : noByte ";" (kraw +:+ String "=" vraw) = true).
  { rewrite noByte_append, Hk2. exact Hv2. }
  assert (Hne : forall t, isEmpty (kraw +:+ t) = false).
  { intros t. by destruct kraw. }
  split.
  - intros rest. rewrite parseQuery_S, Hne.
    assert (kraw +:+ String "=" vraw +:+ String "&" rest
            = (kraw +:+ String "=" vraw) +:+ String "&" rest) as ->.
    { by rewrite append_assoc. }
    rewrite (Cut_byte_found _ _ _ Hpair1), (Contains_byte_none _ _ Hpair2), Hne.
    by rewrite (Cut_byte_found _ _ _ Hk3), Huk, Huv.
  - rewrite parseQuery_S.
    rewrite Hne, (Cut_byte_none _ _ Hpair1), (Contains_byte_none _ _ Hpair2), Hne.
    by rewrite (Cut_byte_found _ _ _ Hk3), Huk, Huv, parseQuery_nil.
Qed.

End PlainURLs.

Section RequestURLs.
Import strings url.

Lemma parseAuthority_youtube : parseAuthority "www.youtube.com" = Some (None, "www.youtube.com").
Proof. reflexivity. Qed.

(** The query of the oEmbed request, read back. *)
Lemma oEmbed_query (videoURL : string) (fuel : nat) :
  let query := "url=" +:+ QueryEscape videoURL +:+ "&format=json" in
  (len query <= fuel)%nat ->
  parseQuery (S fuel) ∅ query
  = <["format" := ["json"]]> (<["url" := [videoURL]]> ∅).
Proof.
  cbv zeta. intros Hfuel.
  pose proof (QueryEscape_bytes videoURL) as Hesc.
  destruct fuel as [|fuel]; [simpl in Hfuel; lia|].
  destruct (parseQuery_pair (S fuel) (∅ : gmap string (list string)) "url" (QueryEscape videoURL)
              "url" videoURL)
    as [Hround _]; try reflexivity; try discriminate.
  { apply escaped_noByte; [|done]. tauto. }
  { apply escaped_noByte; [|done]. tauto. }
  { apply QueryUnescape_QueryEscape. }
  change ("url=" +:+ QueryEscape videoURL +:+ "&format=json")
    with ("url" +:+ String "=" (QueryEscape videoURL) +:+ String "&" "format=json").
  rewrite Hround. unfold Values in *. rewrite lookup_empty. cbn [default app].
  destruct (parseQuery_pair fuel (<["url" := [videoURL]]> (∅ : gmap string (list string)))
              "format" "json" "format" "json") as [_ Hlast];
    try reflexivity; try discriminate.
  change "format=json" with ("format" +:+ String "=" "json").
  rewrite Hlast. unfold Values.
  rewrite lookup_insert_ne by discriminate.
  rewrite lookup_empty. reflexivity.
Qed.

End RequestURLs.

(** X13.  The one call of the oEmbed client goes to a URL that always
    parses: https, host www.youtube.com, path /oembed, no fragment, and a
    query whose [url] parameter decodes to exactly the page URL that was
    passed in, whatever bytes it holds, and whose [format] parameter is
    json. *)
Theorem oEmbed_request_carries_url (videoURL : string) (net : http.Network) :
  exists req u,
    snd (fetchYouTubeOEmbed videoURL net) = [req]
    /\ http.Method req = "GET"
    /\ url.Parse (http.URL req) = Some u
    /\ url.Scheme u = "https"
    /\ url.Host u = "www.youtube.com"
    /\ url.Path u = "/oembed"
    /\ url.Fragment u = ""
    /\ url.Get (url.Query u) "url" = videoURL
    /\ url.Get (url.Query u) "format" = "json".
Proof.
  pose proof (QueryEscape_bytes videoURL) as Hesc.
  set (query := "url=" +:+ url.QueryEscape videoURL +:+ "&format=json").
  exists (oEmbedRequest videoURL),
         (url.mkURL "https" "" None "www.youtube.com" "/oembed" "" false false query "" "").
  split; [apply fetchYouTubeOEmbed_log|]. split; [reflexivity|].
  assert (Hq : forall c, c = "#"%char \/ c = "?"%char -> noByte c query = true).
  { intros c Hc. unfold query. rewrite !noByte_append.
    rewrite (escaped_noByte c (url.QueryEscape videoURL)); [|tauto|done].
    destruct Hc as [-> | ->]; reflexivity. }
  split.
  - change (http.URL (oEmbedRequest videoURL))
      with (httpsURL "www.youtube.com" "/oembed" query).
    rewrite Parse_no_fragment.
    + apply parse_httpsURL; try reflexivity.
      * unfold query. intros H. discriminate H.
      * apply Hq. by right.
      * unfold query. rewrite !CTL_append, (escaped_noCTL _ Hesc). reflexivity.
    + unfold httpsURL. rewrite !noByte_append.
      change (String "?" query) with ("?" +:+ query).
      rewrite noByte_append, (Hq "#"%char); [reflexivity|by left].
  - split; [reflexivity|]. split; [reflexivity|]. split; [reflexivity|].
    split; [reflexivity|].
    unfold url.Query. cbn [url.RawQuery].
    unfold query. rewrite oEmbed_query by done.
    unfold url.Get, url.Values. split.
    + rewrite lookup_insert_ne by discriminate. by rewrite lookup_insert_eq.
    + by rewrite lookup_insert_eq.
Qed.

Section VideoIDs.
Import strings url.

Lemma idBytes_plain (id : string) :
  all idByte id = true ->
  all escapedByte id = true
  /\ noByte "%" id = true /\ noByte "+" id = true
  /\ escape id encodePath = id
  /\ QueryEscape id = id.
Proof.
  intros H. repeat split.
  - revert H. apply all_impl. intros c Hc. by destruct (idByte_plain c Hc) as (? & _).
  - revert H. apply all_impl. intros c Hc. by destruct (idByte_plain c Hc) as (_ & ? & _).
  - revert H. apply all_impl. intros c Hc. by destruct (idByte_plain c Hc) as (_ & _ & ? & _).
  - apply escape_plain. revert H. apply all_impl. intros c Hc.
    destruct (idByte_plain c Hc) as (_ & _ & _ & -> & _). reflexivity.
  - apply escape_plain. revert H. apply all_impl. intros c Hc.
    destruct (idByte_plain c Hc) as (_ & _ & _ & _ & ->). reflexivity.
Qed.

Lemma parseAuthority_youtu_be : parseAuthority "youtu.be" = Some (None, "youtu.be").
Proof. reflexivity. Qed.

(** The query [v=...] of a watch URL, read back. *)
Lemma watch_query (s : string) :
  Get (parseQuery (S (len ("v=" +:+ QueryEscape s))) ∅ ("v=" +:+ QueryEscape s)) "v" = s.
Proof.
  pose proof (QueryEscape_bytes s) as Hesc.
  set (fuel := len ("v=" +:+ QueryEscape s)).
  destruct (parseQuery_pair fuel (∅ : gmap string (list string))
              "v" (QueryEscape s) "v" s) as [_ Hlast];
    try reflexivity; try discriminate.
  { apply escaped_noByte; [|done]. tauto. }
  { apply escaped_noByte; [|done]. tauto. }
  { apply QueryUnescape_QueryEscape. }
  change ("v=" +:+ QueryEscape s) with ("v" +:+ String "=" (QueryEscape s)).
  unfold Values in *.
  rewrite Hlast. unfold Get, Values. by rewrite lookup_insert_eq, lookup_empty.
Qed.

End VideoIDs.

(** X15.  A watch URL is accepted and classified as YouTube, and its
    video ID is the percent-decoded value of the [v] parameter: every byte
    string is the ID of some accepted URL, since the ID is not checked
    against any alphabet.  For an ID of letters, digits, '-' and '_' the
    plain URL gives back the ID as written. *)
Theorem watch_url_id (s : string) :
  (exists u,
     url.ParseRequestURI ("https://www.youtube.com/watch?v=" +:+ url.QueryEscape s) = Some u
     /\ isYouTubeURL u = true
     /\ extractYouTubeID u = s)
  /\ (strings.all idByte s = true ->
      exists u,
        url.ParseRequestURI ("https://www.youtube.com/watch?v=" +:+ s) = Some u
        /\ isYouTubeURL u = true
        /\ extractYouTubeID u = s).
Proof.
  assert (Hgen : exists u,
     url.ParseRequestURI ("https://www.youtube.com/watch?v=" +:+ url.QueryEscape s) = Some u
     /\ isYouTubeURL u = true
     /\ extractYouTubeID u = s).
  { pose proof (QueryEscape_bytes s) as Hesc.
    set (query := "v=" +:+ url.QueryEscape s).
    exists (url.mkURL "https" "" None "www.youtube.com" "/watch" "" false false query "" "").
    split; [|split].
    - change ("https://www.youtube.com/watch?v=" +:+ url.QueryEscape s)
        with (httpsURL "www.youtube.com" "/watch" query).
      apply parse_httpsURL; try reflexivity.
      + unfold query. intros H. discriminate H.
      + unfold query. rewrite noByte_append.
        rewrite (escaped_noByte "?" (url.QueryEscape s)); [reflexivity|tauto|done].
      + unfold query. rewrite CTL_append, (escaped_noCTL _ Hesc). reflexivity.
    - reflexivity.
    - unfold extractYouTubeID.
      change (strings.Contains
                (url.Host (url.mkURL "https" "" None "www.youtube.com" "/watch" ""
                             false false query "" "")) "youtu.be") with false.
      cbv iota. unfold url.Query. cbn [url.RawQuery]. apply watch_query. }
  split; [exact Hgen|].
  intros Hid. destruct (idBytes_plain s Hid) as (_ & _ & _ & _ & Hesc).
  by rewrite Hesc in Hgen.
Qed.

(** X16.  A short link whose path is an ID of letters, digits, '-' and '_'
    is accepted and classified as YouTube, and that ID is extracted. *)
Theorem short_link_url_id (id : string) :
  strings.all idByte id = true ->
  exists u,
    url.ParseRequestURI ("https://youtu.be/" +:+ id) = Some u
    /\ isYouTubeURL u = true
    /\ extractYouTubeID u = id.
Proof.
  intros Hid.
  destruct (idBytes_plain id Hid) as (Hesc & Hpct & Hplus & Hpath & _).
  exists (url.mkURL "https" "" None "youtu.be" (String "/" id) "" false false "" "" "").
  split; [|split].
  - change ("https://youtu.be/" +:+ id) with (httpsPlainURL "youtu.be" (String "/" id)).
    apply parse_httpsPlainURL; try reflexivity.
    + by destruct id.
    + apply (escaped_noByte "?" id) in Hesc; [|tauto]. exact Hesc.
    + change (String "/" id) with ("/" +:+ id).
      rewrite CTL_append, (escaped_noCTL _ Hesc). reflexivity.
    + apply unescape_plain; [reflexivity| |]; unfold noByte; simpl; assumption.
    + simpl. by rewrite Hpath.
  - reflexivity.
  - unfold extractYouTubeID. simpl. unfold strings.TrimPrefix. simpl. by destruct id.
Qed.

Section DataAPIURL.
Import strings url.

Lemma parseAuthority_googleapis :
  parseAuthority "www.googleapis.com" = Some (None, "www.googleapis.com").
Proof. reflexivity. Qed.

Lemma dataAPI_query (videoID apiKey : string) :
  all idByte videoID = true -> all idByte apiKey = true ->
  let query := "part=snippet&id=" +:+ videoID +:+ "&key=" +:+ apiKey in
  parseQuery (S (len query)) ∅ query
  = <["key" := [apiKey]]> (<["id" := [videoID]]> (<["part" := ["snippet"]]> ∅)).
Proof.
  intros Hid Hkey. cbv zeta.
  destruct (idBytes_plain videoID Hid) as (Hid1 & Hid2 & Hid3 & _ & _).
  destruct (idBytes_plain apiKey Hkey) as (Hkey1 & Hkey2 & Hkey3 & _ & _).
  set (tail1 := "id=" +:+ videoID +:+ "&key=" +:+ apiKey).
  set (tail2 := "key=" +:+ apiKey).
  change (len ("part=snippet&id=" +:+ videoID +:+ "&key=" +:+ apiKey))
    with (S (S (len ("rt=snippet&id=" +:+ videoID +:+ "&key=" +:+ apiKey)))).
  set (fuel := len ("rt=snippet&id=" +:+ videoID +:+ "&key=" +:+ apiKey)).
  destruct (parseQuery_pair (S (S fuel)) (∅ : gmap string (list string))
              "part" "snippet" "part" "snippet") as [Hround1 _];
    try reflexivity; try discriminate.
  change ("part=snippet&id=" +:+ videoID +:+ "&key=" +:+ apiKey)
    with ("part" +:+ String "=" "snippet" +:+ String "&" tail1).
  rewrite Hround1. unfold Values. rewrite lookup_empty. cbn [default app].
  destruct (parseQuery_pair (S fuel) (<["part" := ["snippet"]]> (∅ : gmap string (list string)))
              "id" videoID "id" videoID) as [Hround2 _];
    try reflexivity; try discriminate.
  { by apply escaped_noByte; [tauto|]. }
  { by apply escaped_noByte; [tauto|]. }
  { by apply unescape_plain. }
  change tail1 with ("id" +:+ String "=" videoID +:+ String "&" tail2).
  rewrite Hround2. unfold Values.
  rewrite lookup_insert_ne by discriminate. rewrite lookup_empty. cbn [default app].
  destruct (parseQuery_pair fuel
              (<["id" := [videoID]]> (<["part" := ["snippet"]]> (∅ : gmap string (list string))))
              "key" apiKey "key" apiKey) as [_ Hlast];
    try reflexivity; try discriminate.
  { by apply escaped_noByte; [tauto|]. }
  { by apply escaped_noByte; [tauto|]. }
  { by apply unescape_plain. }
  change tail2 with ("key" +:+ String "=" apiKey).
  rewrite Hlast. unfold Values.
  rewrite !lookup_insert_ne by discriminate. rewrite lookup_empty. reflexivity.
Qed.

End DataAPIURL.

(** X17.  The Data API client writes the ID and the key into the request
    URL as they are.  When both consist of letters, digits, '-' and '_',
    the URL of its one call parses to host www.googleapis.com, path
    /youtube/v3/videos and exactly the parameters part = snippet, id = the
    ID (also when it is empty) and key = the key. *)
Theorem dataAPI_request_parameters (videoID apiKey : string) (net : http.Network) :
  strings.all idByte videoID = true ->
  strings.all idByte apiKey = true ->
  exists req u,
    snd (fetchYouTubeDataAPI videoID apiKey net) = [req]
    /\ http.Method req = "GET"
    /\ url.Parse (http.URL req) = Some u
    /\ url.Scheme u = "https"
    /\ url.Host u = "www.googleapis.com"
    /\ url.Path u = "/youtube/v3/videos"
    /\ url.Get (url.Query u) "part" = "snippet"
    /\ url.Get (url.Query u) "id" = videoID
    /\ url.Get (url.Query u) "key" = apiKey.
Proof.
  intros Hid Hkey.
  destruct (idBytes_plain videoID Hid) as (Hid1 & _).
  destruct (idBytes_plain apiKey Hkey) as (Hkey1 & _).
  set (query := "part=snippet&id=" +:+ videoID +:+ "&key=" +:+ apiKey).
  exists (dataAPIRequest videoID apiKey),
         (url.mkURL "https" "" None "www.googleapis.com" "/youtube/v3/videos" ""
                    false false query "" "").
  split; [apply fetchYouTubeDataAPI_log|]. split; [reflexivity|].
  assert (Hq : forall c, c = "#"%char \/ c = "?"%char -> noByte c query = true).
  { intros c Hc. unfold query. rewrite !noByte_append.
    rewrite (escaped_noByte c videoID), (escaped_noByte c apiKey); try tauto; try done.
    destruct Hc as [-> | ->]; reflexivity. }
  split.
  - change (http.URL (dataAPIRequest videoID apiKey))
      with (httpsURL "www.googleapis.com" "/youtube/v3/videos" query).
    rewrite Parse_no_fragment.
    + apply parse_httpsURL; try reflexivity.
      * unfold query. intros H. discriminate H.
      * apply Hq. by right.
      * unfold query.
        rewrite !CTL_append, (escaped_noCTL _ Hid1), (escaped_noCTL _ Hkey1). reflexivity.
    + unfold httpsURL. rewrite !noByte_append.
      change (String "?" query) with ("?" +:+ query).
      rewrite noByte_append, (Hq "#"%char); [reflexivity|by left].
  - split; [reflexivity|]. split; [reflexivity|]. split; [reflexivity|].
    unfold url.Query. cbn [url.RawQuery].
    unfold query. rewrite dataAPI_query by done.
    unfold url.Get, url.Values. split; [|split].
    + rewrite !lookup_insert_ne by discriminate. by rewrite lookup_insert_eq.
    + rewrite lookup_insert_ne by discriminate. by rewrite lookup_insert_eq.
    + by rewrite lookup_insert_eq.
Qed.

(* ===================================================================== *)
(** * Concrete runs                                                      *)
(* ===================================================================== *)

Module Runs.
Import Samples.

(** The end-to-end example of the specification: og:title "Hi", no
    og:image, one image "logo.png". *)
Example page_hi :
  getMetadataHandler "" pageURL (serving pageURL (htmlBody pageHi)) =
    (JSON 200 (MetadataJSON {| URL := pageURL;
                               PageName := "example.test";
                               Title := "Hi";
                               Description := "";
                               Images := ["https://example.test/logo.png"] |}),
     [pageRequest parsedPage]).
Proof. vm_compute. reflexivity. Qed.

(** C1, counterexample.  With an empty ID and a network that answers the
    videos endpoint with an empty item list, the client does make its
    call. *)
Lemma empty_id_still_calls :
  fetchYouTubeDataAPI "" "k" (serving (dataAPIURL "" "k") emptyObjectBody) =
    (inr (NoVideoFound ""),
     [providerRequest
        "https://www.googleapis.com/youtube/v3/videos?part=snippet&id=&key=k"])
  /\ snd (fetchYouTubeDataAPI "" "k" offline) <> [].
Proof. split; vm_compute; [reflexivity|discriminate]. Qed.

(** C2, counterexample.  An oEmbed answer without a provider name gives a
    200 reply whose page_name is empty. *)
Lemma oembed_blank_provider :
  getMetadataHandler "" shortLink (serving (oEmbedURL shortLink) emptyObjectBody) =
    (JSON 200 (MetadataJSON {| URL := shortLink; PageName := ""; Title := "";
                               Description := ""; Images := [""] |}),
     [oEmbedRequest shortLink]).
Proof. vm_compute. reflexivity. Qed.

(** C3, counterexample.  A relative og:image content is reported as it
    stands. *)
Lemma relative_og_image_kept :
  getMetadataHandler "" pageURL (serving pageURL (htmlBody pageRelativeOgImage)) =
    (JSON 200 (MetadataJSON {| URL := pageURL; PageName := "example.test"; Title := "";
                               Description := ""; Images := ["/a.png"] |}),
     [pageRequest parsedPage])
  /\ hasScheme "/a.png" = false
  /\ isAbsoluteURL "/a.png" = false.
Proof. repeat split; vm_compute; reflexivity. Qed.

(** C5, counterexample.  The rooted path "/foo" is not an absolute URL,
    yet it passes the validation: the page fetch is attempted and its
    failure is answered with 502. *)
Lemma rooted_path_is_fetched :
  isAbsoluteURL "/foo" = false
  /\ url.ParseRequestURI "/foo" = Some parsedRootedPath
  /\ getMetadataHandler "" "/foo" offline =
       (JSON 502 (ErrorJSON "failed to fetch target"), [pageRequest parsedRootedPath]).
Proof. repeat split; vm_compute; reflexivity. Qed.

(** C6, counterexample.  A first og:title tag with blank content does not
    decide the title: the plain title is used, not the (empty) trimmed
    content. *)
Lemma blank_og_title_falls_back :
  goquery.Find pageBlankOgTitle ogTitle = [meta "og:title" "  "]
  /\ strings.TrimSpace "  " = ""
  /\ getMetadataHandler "" pageURL (serving pageURL (htmlBody pageBlankOgTitle)) =
       (JSON 200 (MetadataJSON {| URL := pageURL; PageName := "example.test";
                                  Title := "Plain title"; Description := "";
                                  Images := [] |}),
        [pageRequest parsedPage]).
Proof. repeat split; vm_compute; reflexivity. Qed.

(** C7, counterexample.  Two image elements carry a source, but the one
    that does not parse as a URL reference yields no entry. *)
Lemma unparsable_src_skipped :
  goquery.Find pageBadSrc ogImage = []
  /\ omap (fun n => goquery.Attr [n] "src") (goquery.Find pageBadSrc (goquery.Tag "img"))
     = ["/a.png"; ":bad"]
  /\ url.Parse ":bad" = None
  /\ Images (scrape pageBadSrc pageURL parsedPage) = ["https://example.test/a.png"].
Proof. repeat split; vm_compute; reflexivity. Qed.

(** C9, witness: the oEmbed answer for a video. *)
Lemma fetchYouTubeOEmbed_maps_response_witness :
  serving (oEmbedURL shortLink) (oEmbedBody rick) (oEmbedRequest shortLink)
    = Some (http.mkResponse 200 (oEmbedBody rick))
  /\ fetchYouTubeOEmbed shortLink (serving (oEmbedURL shortLink) (oEmbedBody rick)) =
       (inl {| URL := shortLink;
               PageName := "YouTube";
               Title := "Never Gonna Give You Up";
               Description := "Rick Astley";
               Images := ["https://i.ytimg.com/vi/dQw4w9WgXcQ/hqdefault.jpg"] |},
        [oEmbedRequest shortLink]).
Proof.
  split; [vm_compute; reflexivity|].
  apply (fetchYouTubeOEmbed_maps_response shortLink
           (serving (oEmbedURL shortLink) (oEmbedBody rick))
           (http.mkResponse 200 (oEmbedBody rick)) rick);
    vm_compute; reflexivity.
Defined.

(** C8, witness: a Data API answer whose thumbnails lack the "high" key. *)
Lemma fetchYouTubeDataAPI_maps_response_witness :
  serving (dataAPIURL "abc" "k") (videosBody [snippetNoHigh]) (dataAPIRequest "abc" "k")
    = Some (http.mkResponse 200 (videosBody [snippetNoHigh]))
  /\ fetchYouTubeDataAPI "abc" "k" (serving (dataAPIURL "abc" "k") (videosBody [snippetNoHigh])) =
       (inl {| URL := "abc";
               PageName := "A channel";
               Title := "A video";
               Description := "About it";
               Images := [""] |},
        [dataAPIRequest "abc" "k"]).
Proof.
  split; [vm_compute; reflexivity|].
  refine (eq_trans
            (proj1 (fetchYouTubeDataAPI_maps_response "abc" "k"
                      (serving (dataAPIURL "abc" "k") (videosBody [snippetNoHigh]))
                      (http.mkResponse 200 (videosBody [snippetNoHigh]))
                      (youtubeAPIResponse.mk [youtubeAPIResponse.mkItem snippetNoHigh])
                      (youtubeAPIResponse.mkItem snippetNoHigh) [] _ _ _ _)) _);
    vm_compute; reflexivity.
Defined.

(** C5, witness: a string without scheme or leading slash is rejected. *)
Lemma handler_rejects_unparsed_witness :
  ("nonsense" = "" \/ url.ParseRequestURI "nonsense" = None)
  /\ exists msg,
       getMetadataHandler "k" "nonsense" offline = (JSON 400 (ErrorJSON msg), []).
Proof.
  split; [right; vm_compute; reflexivity|].
  apply (handler_rejects_unparsed "k" "nonsense" offline).
  right; vm_compute; reflexivity.
Defined.

(** C4, witness: a short link whose oEmbed call is answered. *)
Lemma youtube_tiers_in_order_witness :
  shortLink <> ""
  /\ url.ParseRequestURI shortLink = Some parsedShortLink
  /\ isYouTubeURL parsedShortLink = true
  /\ forall meta,
       fst (fetchYouTubeOEmbed shortLink (serving (oEmbedURL shortLink) (oEmbedBody rick)))
         = inl meta ->
       getMetadataHandler "k" shortLink (serving (oEmbedURL shortLink) (oEmbedBody rick))
         = (JSON 200 (MetadataJSON meta), [oEmbedRequest shortLink]).
Proof.
  split; [discriminate|].
  split; [vm_compute; reflexivity|].
  split; [vm_compute; reflexivity|].
  refine (proj1 (youtube_tiers_in_order "k" shortLink parsedShortLink
                   (serving (oEmbedURL shortLink) (oEmbedBody rick)) _ _ _)).
  - discriminate.
  - vm_compute; reflexivity.
  - vm_compute; reflexivity.
Defined.

(** C2, witness: the page of the end-to-end example. *)
Lemma resolved_url_and_page_name_witness :
  getMetadataHandler "" pageURL (serving pageURL (htmlBody pageHi)) =
    (JSON 200 (MetadataJSON (scrape pageHi pageURL parsedPage)), [pageRequest parsedPage])
  /\ exists parsedURL,
       url.ParseRequestURI pageURL = Some parsedURL
       /\ ((exists resp oe,
              serving pageURL (htmlBody pageHi) (oEmbedRequest pageURL) = Some resp
              /\ http.decodeOEmbed (http.body resp) = Some oe
              /\ URL (scrape pageHi pageURL parsedPage) = pageURL
              /\ URL (scrape pageHi pageURL parsedPage) <> ""
              /\ PageName (scrape pageHi pageURL parsedPage) = oEmbedResponse.Provider oe)
           \/ (exists resp data item rest,
                 serving pageURL (htmlBody pageHi)
                   (dataAPIRequest (extractYouTubeID parsedURL) "") = Some resp
                 /\ http.decodeYouTube (http.body resp) = Some data
                 /\ youtubeAPIResponse.Items data = item :: rest
                 /\ URL (scrape pageHi pageURL parsedPage) = extractYouTubeID parsedURL
                 /\ PageName (scrape pageHi pageURL parsedPage) =
                      youtubeAPIResponse.ChannelTitle (youtubeAPIResponse.snippet item))
           \/ (exists resp doc,
                 serving pageURL (htmlBody pageHi) (pageRequest parsedURL) = Some resp
                 /\ http.NewDocumentFromReader (http.body resp) = Some doc
                 /\ scrape pageHi pageURL parsedPage = scrape doc pageURL parsedURL
                 /\ URL (scrape pageHi pageURL parsedPage) = pageURL
                 /\ URL (scrape pageHi pageURL parsedPage) <> ""
                 /\ (url.Host parsedURL <> "" ->
                     PageName (scrape pageHi pageURL parsedPage) <> ""))).
Proof.
  split; [vm_compute; reflexivity|].
  apply (resolved_url_and_page_name "" pageURL (serving pageURL (htmlBody pageHi))
           (scrape pageHi pageURL parsedPage) [pageRequest parsedPage]).
  vm_compute; reflexivity.
Defined.

(** C3, witness: the same page; its one image is the resolved source. *)
Lemma resolved_images_witness :
  getMetadataHandler "" pageURL (serving pageURL (htmlBody pageHi)) =
    (JSON 200 (MetadataJSON (scrape pageHi pageURL parsedPage)), [pageRequest parsedPage])
  /\ exists parsedURL,
       url.ParseRequestURI pageURL = Some parsedURL
       /\ ((exists resp oe,
              serving pageURL (htmlBody pageHi) (oEmbedRequest pageURL) = Some resp
              /\ http.decodeOEmbed (http.body resp) = Some oe
              /\ Images (scrape pageHi pageURL parsedPage) = [oEmbedResponse.ThumbnailURL oe])
           \/ (exists resp data item rest,
                 serving pageURL (htmlBody pageHi)
                   (dataAPIRequest (extractYouTubeID parsedURL) "") = Some resp
                 /\ http.decodeYouTube (http.body resp) = Some data
                 /\ youtubeAPIResponse.Items data = item :: rest
                 /\ Images (scrape pageHi pageURL parsedPage)
                    = [highThumbnail (youtubeAPIResponse.snippet item)])
           \/ (exists resp doc,
                 serving pageURL (htmlBody pageHi) (pageRequest parsedURL) = Some resp
                 /\ http.NewDocumentFromReader (http.body resp) = Some doc
                 /\ let og := omap contentOf (goquery.Find doc ogImage) in
                    let srcs := omap (resolvedSrc parsedURL)
                                     (goquery.Find doc (goquery.Tag "img")) in
                    (og <> [] -> Images (scrape pageHi pageURL parsedPage) = og)
                    /\ (og = [] -> Images (scrape pageHi pageURL parsedPage) = srcs)
                    /\ (og = [] -> url.IsAbs parsedURL = true ->
                        Forall (fun image => hasScheme image = true)
                               (Images (scrape pageHi pageURL parsedPage))))).
Proof.
  split; [vm_compute; reflexivity|].
  apply (resolved_images "" pageURL (serving pageURL (htmlBody pageHi))
           (scrape pageHi pageURL parsedPage) [pageRequest parsedPage]).
  vm_compute; reflexivity.
Defined.

(** C10, witness: an empty og:image content is an entry, and the image
    element of the page is left out. *)
Lemma og_images_verbatim_witness :
  omap contentOf (goquery.Find pageEmptyOgImage ogImage) <> []
  /\ Images (scrape pageEmptyOgImage pageURL parsedPage) = [""; "https://cdn.test/x.png"].
Proof.
  split; [vm_compute; discriminate|].
  refine (eq_trans (proj1 (og_images_verbatim pageEmptyOgImage pageURL parsedPage _)) _).
  - vm_compute; discriminate.
  - vm_compute; reflexivity.
Defined.

(** C7, witness: the page of the end-to-end example has no og:image. *)
Lemma img_sources_resolved_witness :
  url.ParseRequestURI pageURL = Some parsedPage
  /\ goquery.Find pageHi ogImage = []
  /\ Images (scrape pageHi pageURL parsedPage) = ["https://example.test/logo.png"].
Proof.
  split; [vm_compute; reflexivity|].
  split; [vm_compute; reflexivity|].
  refine (eq_trans (proj1 (img_sources_resolved pageHi pageURL parsedPage _ _)) _);
    vm_compute; reflexivity.
Defined.

End Runs.

(* ===================================================================== *)
(** * More concrete runs                                                 *)
(* ===================================================================== *)

Module Checks.
Import Samples.

(** X5, witness: a short link, a key, and a network that answers nothing:
    all three calls are made, in order. *)
Lemma handler_calls_in_order_witness :
  shortLink <> ""
  /\ url.ParseRequestURI shortLink = Some parsedShortLink
  /\ snd (getMetadataHandler "k" shortLink offline)
     = [oEmbedRequest shortLink; dataAPIRequest "abc" "k"; pageRequest parsedShortLink]
  /\ sublist (snd (getMetadataHandler "k" shortLink offline))
       [oEmbedRequest shortLink;
        dataAPIRequest (extractYouTubeID parsedShortLink) "k";
        pageRequest parsedShortLink].
Proof.
  split; [discriminate|].
  split; [vm_compute; reflexivity|].
  split; [vm_compute; reflexivity|].
  refine (proj1 (handler_calls_in_order "k" shortLink parsedShortLink offline _ _)).
  - discriminate.
  - vm_compute; reflexivity.
Defined.

(** X6, witness: the opaque URL passes the validation, and the request
    for it cannot be created. *)
Lemma generic_fetch_outcome_witness :
  opaqueURL <> ""
  /\ url.ParseRequestURI opaqueURL = Some parsedOpaque
  /\ isYouTubeURL parsedOpaque = false
  /\ url.Parse (url.String_ parsedOpaque) = None
  /\ fst (getMetadataHandler "" opaqueURL offline)
     = JSON 500 (ErrorJSON "failed to create request")
  /\ snd (getMetadataHandler "" opaqueURL offline) = [].
Proof.
  split; [discriminate|].
  split; [vm_compute; reflexivity|].
  split; [vm_compute; reflexivity|].
  split; [vm_compute; reflexivity|].
  refine (proj1 (generic_fetch_outcome "" opaqueURL parsedOpaque offline _ _ _) _).
  - discriminate.
  - vm_compute; reflexivity.
  - vm_compute; reflexivity.
  - vm_compute; reflexivity.
Defined.


(** X14, witness: the parsed short link. *)
Lemma short_link_id_witness :
  strings.Contains (url.Hostname parsedShortLink) "youtu.be" = true
  /\ isYouTubeURL parsedShortLink = true
  /\ extractYouTubeID parsedShortLink = strings.TrimPrefix (url.Path parsedShortLink) "/"
  /\ (forall id, url.Path parsedShortLink = "/" +:+ id -> extractYouTubeID parsedShortLink = id)
  /\ (url.Path parsedShortLink = "" -> extractYouTubeID parsedShortLink = "").
Proof.
  split; [vm_compute; reflexivity|].
  apply (short_link_id parsedShortLink). vm_compute; reflexivity.
Defined.

(** X16, witness: an eleven-byte ID. *)
Lemma short_link_url_id_witness :
  strings.all idByte "dQw4w9WgXcQ" = true
  /\ exists u,
       url.ParseRequestURI ("https://youtu.be/" +:+ "dQw4w9WgXcQ") = Some u
       /\ isYouTubeURL u = true
       /\ extractYouTubeID u = "dQw4w9WgXcQ".
Proof.
  split; [vm_compute; reflexivity|].
  apply (short_link_url_id "dQw4w9WgXcQ"). vm_compute; reflexivity.
Defined.

(** X17, witness: a plain ID and key. *)
Lemma dataAPI_request_parameters_witness :
  strings.all idByte "abc" = true
  /\ strings.all idByte "k" = true
  /\ exists req u,
       snd (fetchYouTubeDataAPI "abc" "k" offline) = [req]
       /\ http.Method req = "GET"
       /\ url.Parse (http.URL req) = Some u
       /\ url.Scheme u = "https"
       /\ url.Host u = "www.googleapis.com"
       /\ url.Path u = "/youtube/v3/videos"
       /\ url.Get (url.Query u) "part" = "snippet"
       /\ url.Get (url.Query u) "id" = "abc"
       /\ url.Get (url.Query u) "key" = "k".
Proof.
  split; [vm_compute; reflexivity|].
  split; [vm_compute; reflexivity|].
  apply (dataAPI_request_parameters "abc" "k" offline); vm_compute; reflexivity.
Defined.

End Checks.
